(** * Supply-chain analytics: ensemble forecasting, trend metrics and risk levels

    A shallow embedding of the numeric core of
    [backend/services/ml_service.py], [backend/services/analytics_service.py]
    and [ml_models/ml_service.py].

    Python and NumPy floats are modelled as exact rationals extended with the
    special values [+inf], [-inf] and [nan]; rounding, overflow and the sign
    of zero are not modelled.  NumPy's global random generator is an explicit
    state threaded through the functions that draw from it. *)

From Stdlib Require Import String.
From Stdlib Require Import QArith Qminmax Qabs ZArith List Lia Lqa Bool.
From Stdlib Require Import Reals Qreals.
Import Init.Datatypes.
Import ListNotations.
Open Scope string_scope.
Open Scope list_scope.
Open Scope Q_scope.

(** ** Floats *)

Module PyFloat.

Inductive pyfloat : Type :=
| Num (q : Q)
| PInf
| NInf
| NaN.

(** Two floats denote the same value. *)
Definition feq (a b : pyfloat) : Prop :=
  match a, b with
  | Num x, Num y => x == y
  | PInf, PInf | NInf, NInf | NaN, NaN => True
  | _, _ => False
  end.

Definition is_nan (a : pyfloat) : bool :=
  match a with NaN => true | _ => false end.

Definition fneg (a : pyfloat) : pyfloat :=
  match a with
  | Num x => Num (- x)
  | PInf => NInf
  | NInf => PInf
  | NaN => NaN
  end.

Definition fadd (a b : pyfloat) : pyfloat :=
  match a, b with
  | NaN, _ | _, NaN => NaN
  | Num x, Num y => Num (x + y)
  | PInf, NInf | NInf, PInf => NaN
  | PInf, _ | _, PInf => PInf
  | NInf, _ | _, NInf => NInf
  end.

Definition fsub (a b : pyfloat) : pyfloat := fadd a (fneg b).

(** The infinity whose sign is that of [c] ([nan] for [Eq]: [inf * 0]). *)
Definition signed_inf (c : comparison) : pyfloat :=
  match c with Gt => PInf | Lt => NInf | Eq => NaN end.

Definition fmul (a b : pyfloat) : pyfloat :=
  match a, b with
  | NaN, _ | _, NaN => NaN
  | Num x, Num y => Num (x * y)
  | PInf, Num y | Num y, PInf => signed_inf (y ?= 0)
  | NInf, Num y | Num y, NInf => signed_inf (0 ?= y)
  | PInf, PInf | NInf, NInf => PInf
  | PInf, NInf | NInf, PInf => NInf
  end.

(** NumPy's true division: dividing by zero is not an exception, it yields
    [nan] for [0/0] and a signed infinity otherwise. *)
Definition fdiv (a b : pyfloat) : pyfloat :=
  match a, b with
  | NaN, _ | _, NaN => NaN
  | Num x, Num y => if Qeq_bool y 0 then signed_inf (x ?= 0) else Num (x / y)
  | Num _, (PInf | NInf) => Num 0
  | PInf, Num y => if Qle_bool 0 y then PInf else NInf
  | NInf, Num y => if Qle_bool 0 y then NInf else PInf
  | (PInf | NInf), (PInf | NInf) => NaN
  end.

(** [a < b]; every comparison with [nan] is false. *)
Definition flt (a b : pyfloat) : bool :=
  match a, b with
  | NaN, _ | _, NaN => false
  | Num x, Num y => match x ?= y with Lt => true | _ => false end
  | _, NInf => false
  | NInf, _ => true
  | PInf, _ => false
  | _, PInf => true
  end.

Definition fgt (a b : pyfloat) : bool := flt b a.

(** [a <= b]. *)
Definition fle (a b : pyfloat) : bool :=
  match a, b with
  | NaN, _ | _, NaN => false
  | Num x, Num y => Qle_bool x y
  | NInf, _ | _, PInf => true
  | _, _ => false
  end.

(** Python's [max(a, b)]: [b] replaces [a] only when [b > a]. *)
Definition pymax (a b : pyfloat) : pyfloat := if fgt b a then b else a.

(** Python's [min(a, b)]: [b] replaces [a] only when [b < a]. *)
Definition pymin (a b : pyfloat) : pyfloat := if flt b a then b else a.

(** Python's built-in [sum]: left to right, starting from [0]. *)
Definition py_sum (l : list pyfloat) : pyfloat := fold_left fadd l (Num 0).

End PyFloat.
Export PyFloat.

(** ** Exceptions *)

Inductive exn : Type :=
| IndexError
| ValueError.

Inductive result (A : Type) : Type :=
| Ok (a : A)
| Raise (e : exn).
Arguments Ok {A} a.
Arguments Raise {A} e.

Definition rbind {A B} (r : result A) (k : A -> result B) : result B :=
  match r with
  | Ok a => k a
  | Raise e => Raise e
  end.

Notation "x <- r ;; k" := (rbind r (fun x => k))
  (at level 61, r at next level, right associativity).

(** Run [f] on every element in order, stopping at the first exception. *)
Fixpoint mapM {A B} (f : A -> result B) (l : list A) : result (list B) :=
  match l with
  | [] => Ok []
  | a :: l' => b <- f a ;; bs <- mapM f l' ;; Ok (b :: bs)
  end.

(** [l[i]] for a non-negative index. *)
Definition py_index {A} (l : list A) (i : nat) : result A :=
  match nth_error l i with
  | Some a => Ok a
  | None => Raise IndexError
  end.

(** ** NumPy's global random generator *)

Module NpRandom.

(** The state of the generator: the sequence of standard normal variates it
    will deliver, and how many have been consumed. *)
Record RandomState : Type := mkRandomState {
  tape : nat -> Q;
  pos : nat
}.

Definition standard_normal (st : RandomState) : Q * RandomState :=
  (tape st (pos st), mkRandomState (tape st) (S (pos st))).

(** [np.random.normal(loc, scale)] is [loc + scale * z] for the next
    standard variate [z]. *)
Definition normal (loc scale : Q) (st : RandomState) : Q * RandomState :=
  let (z, st') := standard_normal st in (loc + scale * z, st').

(** [np.random.normal(loc, scale, n)]: [n] successive draws. *)
Fixpoint normal_n (loc scale : Q) (n : nat) (st : RandomState)
  : list Q * RandomState :=
  match n with
  | O => ([], st)
  | S n' =>
      let (x, st1) := normal loc scale st in
      let (xs, st2) := normal_n loc scale n' st1 in
      (x :: xs, st2)
  end.

(** [np.random.seed(s)]: the generator restarts on the stream that belongs to
    the seed; [stream] is that seed-indexed family of streams. *)
Definition seed (stream : Z -> nat -> Q) (s : Z) : RandomState :=
  mkRandomState (stream s) 0.

End NpRandom.

(** ** Square roots of rationals

    [np.std] and pandas' [std] return the square root of a variance; the root
    is kept symbolic, represented exactly by its radicand. *)

Inductive sqrtQ : Type :=
| Sqrt (radicand : Q).

(** The real number a symbolic root stands for. *)
Definition sqrt_val (x : sqrtQ) : R :=
  match x with Sqrt q => sqrt (Q2R q) end.

(** ** NumPy and pandas reductions over finite series *)

Module Np.

Definition Qsum (l : list Q) : Q := fold_right Qplus 0 l.

Definition Qlen (l : list Q) : Q := inject_Z (Z.of_nat (length l)).

(** [np.mean] of a non-empty series ([nan] with a warning on an empty one,
    which no caller below produces). *)
Definition mean (l : list Q) : Q := Qsum l / Qlen l.

(** Sum of squared deviations from the mean. *)
Definition sq_dev (l : list Q) : Q :=
  Qsum (map (fun x => (x - mean l) * (x - mean l)) l).

(** [np.std(l)]: population standard deviation (ddof = 0). *)
Definition std (l : list Q) : sqrtQ := Sqrt (sq_dev l / Qlen l).

End Np.

Module Pd.

(** A float column; [None] is a missing entry (pandas' NaN). *)
Definition column : Type := list (option Q).

(** [Series.shift(lag)]. *)
Definition shift (lag : nat) (s : list Q) : column :=
  firstn (length s) (repeat None lag ++ map Some s).

(** The observations a window of width [w] ending at index [i] covers:
    [s[max(0, i-w+1) .. i]]. *)
Definition window_at (w : nat) (s : list Q) (i : nat) : list Q :=
  firstn (S i - (S i - w)) (skipn (S i - w) s).

(** [Series.rolling(w)] followed by a reduction [f]: the entry is missing
    until the window holds [w] observations ([min_periods] defaults to the
    window width). *)
Definition rolling {A} (w : nat) (f : list Q -> option A) (s : list Q)
  : list (option A) :=
  map (fun i =>
         let obs := window_at w s i in
         if (length obs <? w)%nat then None else f obs)
      (seq 0 (length s)).

(** [.rolling(w).mean()]. *)
Definition rolling_mean (w : nat) (s : list Q) : column :=
  rolling w (fun obs => match obs with [] => None | _ => Some (Np.mean obs) end) s.

(** [.rolling(w).std()]: pandas' default is the sample standard deviation
    (ddof = 1), missing when the window holds a single observation. *)
Definition rolling_std (w : nat) (s : list Q) : list (option sqrtQ) :=
  rolling w (fun obs =>
               if (length obs <=? 1)%nat then None
               else Some (Sqrt (Np.sq_dev obs / (Np.Qlen obs - 1)))) s.

End Pd.

(** ** [backend/services/ml_service.py] *)

Module MLService.
Import NpRandom.

(** What a generator returns: a dict that holds either ["predictions"],
    ["model_type"] and ["confidence"], or only ["error"]. *)
Record forecast : Type := mkForecast {
  predictions : option (list pyfloat);
  model_type : option string;
  confidence : option pyfloat;
  error : option string
}.

Definition success (preds : list pyfloat) (name : string) (conf : Q)
  : forecast :=
  mkForecast (Some preds) (Some name) (Some (Num conf)) None.

Definition failure (msg : string) : forecast :=
  mkForecast None None None (Some msg).

(** The [forecasts] dict of [predict_demand], in insertion order. *)
Definition forecasts_dict : Type := list (string * forecast).

(** The demand frame: day offsets from the first date, and one demand value
    per day. *)
Record DataFrame : Type := mkDataFrame {
  date : list nat;
  demand : list Q;
  product_sku : string
}.

(** The feature dict; the four calendar columns are derived from the dates
    alone and are left out. *)
Record features_dict : Type := mkFeatures {
  demand_lag : list (nat * Pd.column);
  demand_rolling_mean : list (nat * Pd.column);
  demand_rolling_std : list (nat * list (option sqrtQ));
  demand_trend : list nat
}.

Definition _prepare_demand_features (data : DataFrame) : features_dict :=
  mkFeatures
    (map (fun lag => (lag, Pd.shift lag (demand data))) [1; 7; 14; 30]%nat)
    (map (fun window => (window, Pd.rolling_mean window (demand data)))
         [7; 14; 30]%nat)
    (map (fun window => (window, Pd.rolling_std window (demand data)))
         [7; 14; 30]%nat)
    (seq 0 (length (demand data))).

(** The loop shared by the three generators:
    [prediction = base_value + np.random.normal(loc, scale)], then
    [predictions.append(max(prediction, 0))]. *)
Fixpoint predict_loop (base_value loc scale : Q) (n : nat) (st : RandomState)
  : list pyfloat * RandomState :=
  match n with
  | O => ([], st)
  | S n' =>
      let (x, st1) := normal loc scale st in
      let prediction := Num (base_value + x) in
      let (rest, st2) := predict_loop base_value loc scale n' st1 in
      (pymax prediction (Num 0) :: rest, st2)
  end.

(** ["predictions" in forecast]. *)
Definition has_predictions (f : forecast) : bool :=
  match predictions f with Some _ => true | None => false end.

(** [forecast.get("confidence", 0.8)]. *)
Definition get_confidence (f : forecast) : pyfloat :=
  match confidence f with Some c => c | None => Num 0.8 end.

(** The first loop of [_create_ensemble_forecast]: the predictions of the
    forecasts that have any, paired with their confidence (0.8 when the
    key is absent). *)
Fixpoint collect (forecasts : forecasts_dict) : list (list pyfloat * pyfloat) :=
  match forecasts with
  | [] => []
  | (_, f) :: rest =>
      match predictions f with
      | Some preds => (preds, get_confidence f) :: collect rest
      | None => collect rest
      end
  end.

Definition predictions_list (forecasts : forecasts_dict) : list (list pyfloat) :=
  map fst (collect forecasts).

Definition raw_weights (forecasts : forecasts_dict) : list pyfloat :=
  map snd (collect forecasts).

(** [np.array(weights) / sum(weights)]. *)
Definition normalize (weights : list pyfloat) : list pyfloat :=
  map (fun w => fdiv w (py_sum weights)) weights.

(** [sum(w * p for w, p in zip(weights, day_predictions))], floored by
    [max(_, 0)]. *)
Definition ensemble_day (weights : list pyfloat) (preds : list (list pyfloat))
    (day : nat) : result pyfloat :=
  day_predictions <- mapM (fun pred => py_index pred day) preds ;;
  let weighted_prediction :=
    py_sum (map (fun '(w, p) => fmul w p) (combine weights day_predictions)) in
  Ok (pymax weighted_prediction (Num 0)).

Definition _create_ensemble_forecast (forecasts : forecasts_dict) (days : Z)
    (st : RandomState) : result (list pyfloat) * RandomState :=
  match predictions_list forecasts with
  | [] =>
      let (xs, st') := normal_n 0 10 (Z.to_nat days) st in
      (Ok (map (fun x => Num (100 + x)) xs), st')
  | preds =>
      let weights := normalize (raw_weights forecasts) in
      (mapM (ensemble_day weights preds) (seq 0 (Z.to_nat days)), st)
  end.

(** The dict [_calculate_confidence_intervals] returns. *)
Record confidence_intervals : Type := mkIntervals {
  lower_bound : list pyfloat;
  upper_bound : list pyfloat;
  confidence_level : Q
}.

Definition std_error : pyfloat := Num 5.0.

Definition _calculate_confidence_intervals (forecasts : list pyfloat)
    (features : features_dict) : confidence_intervals :=
  mkIntervals
    (map (fun f => fsub f (fmul (Num 1.96) std_error)) forecasts)
    (map (fun f => fadd f (fmul (Num 1.96) std_error)) forecasts)
    0.95.

Section Service.

(** Whether the [tensorflow] import succeeded. *)
Variable TENSORFLOW_AVAILABLE : bool.
(** The stream NumPy's generator delivers after [np.random.seed(s)]. *)
Variable stream : Z -> nat -> Q.
(** [20 * sin(2 * pi * i / 365)], the seasonal term of day [i]. *)
Variable seasonality : nat -> Q.

(** Days from 2023-01-01 to 2025-12-01, both included. *)
Definition n_dates : nat := 1066.

(** [np.linspace(0, 20, n)[i]]. *)
Definition linspace_0_20 (n i : nat) : Q :=
  inject_Z (Z.of_nat i) * (20 / inject_Z (Z.of_nat n - 1)).

Definition _get_historical_demand_data (sku : string) (st : RandomState)
  : DataFrame * RandomState :=
  let st0 := seed stream 42 in
  let (noise, st1) := normal_n 0 10 n_dates st0 in
  let raw := map (fun '(i, e) => 100 + linspace_0_20 n_dates i + seasonality i + e)
                 (combine (seq 0 n_dates) noise) in
  (mkDataFrame (seq 0 n_dates) (map (fun x => Qmax x 0) raw) sku, st1).

Definition _predict_with_lstm (features : features_dict) (days : Z)
    (st : RandomState) : forecast * RandomState :=
  if negb TENSORFLOW_AVAILABLE then (failure "TensorFlow not available", st)
  else
    let (preds, st') := predict_loop 100 0 10 (Z.to_nat days) st in
    (success preds "LSTM" 0.85, st').

Definition _predict_with_random_forest (features : features_dict) (days : Z)
    (st : RandomState) : forecast * RandomState :=
  let (preds, st') := predict_loop 95 5 8 (Z.to_nat days) st in
  (success preds "Random Forest" 0.80, st').

Definition _predict_with_gradient_boosting (features : features_dict)
    (days : Z) (st : RandomState) : forecast * RandomState :=
  let (preds, st') := predict_loop 102 3 7 (Z.to_nat days) st in
  (success preds "Gradient Boosting" 0.82, st').

(** [predict_demand] from its first statement to the confidence intervals:
    the values it binds to [forecasts], [ensemble_forecast] and
    [confidence_intervals].  The statements after that point call helper
    methods the class does not define. *)
Record demand_forecast : Type := mkDemandForecast {
  individual_model_forecasts : forecasts_dict;
  point_forecasts : list pyfloat;
  intervals : option confidence_intervals
}.

(** The forecasting stage of [predict_demand]: the generators run in turn,
    each result is stored in the [forecasts] dict, and the dict is combined. *)
Definition ensemble_forecaster (features : features_dict) (days : Z)
    (st : RandomState)
  : (forecasts_dict * result (list pyfloat)) * RandomState :=
  let (forecasts1, st2) :=
    if TENSORFLOW_AVAILABLE then
      let (lstm_forecast, st') := _predict_with_lstm features days st in
      ([("lstm", lstm_forecast)], st')
    else ([], st) in
  let (rf_forecast, st3) := _predict_with_random_forest features days st2 in
  let (gb_forecast, st4) :=
    _predict_with_gradient_boosting features days st3 in
  let forecasts :=
    forecasts1 ++ [("random_forest", rf_forecast);
                   ("gradient_boosting", gb_forecast)] in
  let (ensemble, st5) := _create_ensemble_forecast forecasts days st4 in
  ((forecasts, ensemble), st5).

Definition predict_demand (sku : string) (days : Z)
    (include_uncertainty : bool) (st : RandomState)
  : result demand_forecast * RandomState :=
  let (historical_data, st1) := _get_historical_demand_data sku st in
  if (length (demand historical_data) <? 30)%nat then (Raise ValueError, st1)
  else
    let features := _prepare_demand_features historical_data in
    let '((forecasts, ensemble), st2) :=
      ensemble_forecaster features days st1 in
    (ensemble_forecast <- ensemble ;;
     Ok (mkDemandForecast forecasts ensemble_forecast
           (if include_uncertainty
            then Some (_calculate_confidence_intervals ensemble_forecast features)
            else None)),
     st2).

End Service.

End MLService.

(** ** Python dicts with string keys and slices *)

Module Py.

(** A dict whose values are numbers, in insertion order. *)
Definition dict : Type := list (string * Q).

(** [d.get(key, default)]. *)
Fixpoint get (d : dict) (key : string) (default : Q) : Q :=
  match d with
  | [] => default
  | (k, v) :: rest => if String.eqb k key then v else get rest key default
  end.

(** [key in d]. *)
Definition has_key (d : dict) (key : string) : bool :=
  existsb (fun kv => String.eqb (fst kv) key) d.

(** Where a slice bound lands in a list of length [n]: negative bounds count
    from the end, and every bound is clamped to [0 .. n]. *)
Definition clamp (n : nat) (i : Z) : nat :=
  Z.to_nat (if (i <? 0)%Z then Z.max 0 (Z.of_nat n + i) else Z.min i (Z.of_nat n)).

(** [l[start:]]. *)
Definition slice_from {A} (l : list A) (start : Z) : list A :=
  skipn (clamp (length l) start) l.

(** [l[:stop]]. *)
Definition slice_to {A} (l : list A) (stop : Z) : list A :=
  firstn (clamp (length l) stop) l.

(** [len(l)]. *)
Definition len {A} (l : list A) : Z := Z.of_nat (length l).

End Py.

(** ** [backend/services/analytics_service.py] *)

Module AnalyticsService.

Record trend_metrics : Type := mkTrend {
  trend_direction : string;
  change_percentage : Q;
  volatility : sqrtQ;
  trend_strength : Q
}.

Inductive trend_result : Type :=
| InsufficientData                 (* {"trend": "insufficient_data"} *)
| Metrics (m : trend_metrics).

Definition values_of (data : list Py.dict) : list Q :=
  map (fun item => Py.get item "value" 0) data.

(** [np.mean(values[-7:]) if len(values) >= 7
     else np.mean(values[-len(values)//2:])]; the unary minus binds tighter
    than [//], so the bound is the floor of [-len/2]. *)
Definition recent_avg (values : list Q) : Q :=
  if (7 <=? Py.len values)%Z
  then Np.mean (Py.slice_from values (-7))
  else Np.mean (Py.slice_from values ((- Py.len values) / 2)%Z).

(** [np.mean(values[:len(values)//2]) if len(values) >= 2 else values[0]]. *)
Definition earlier_avg (values : list Q) : Q :=
  if (2 <=? Py.len values)%Z
  then Np.mean (Py.slice_to values (Py.len values / 2)%Z)
  else hd 0 values.

Definition change_pct (values : list Q) : Q :=
  if negb (Qeq_bool (earlier_avg values) 0)
  then (recent_avg values - earlier_avg values) / earlier_avg values * 100
  else 0.

Definition Qltb (a b : Q) : bool :=
  match a ?= b with Lt => true | _ => false end.

Definition _calculate_trend_metrics (data : list Py.dict) : trend_result :=
  if (Py.len data <? 2)%Z then InsufficientData
  else
    let values := values_of data in
    let c := change_pct values in
    Metrics
      (mkTrend
         (if Qltb 0 c then "up" else if Qltb c 0 then "down" else "stable")
         c
         (if (1 <? Py.len values)%Z then Np.std values else Sqrt 0)
         (Qabs c)).

(** [trend_analysis.get("trend_direction")]: absent from the sentinel. *)
Definition get_trend_direction (t : trend_result) : option string :=
  match t with
  | Metrics m => Some (trend_direction m)
  | InsufficientData => None
  end.

(** [trend_analysis.get("change_percentage", 0)]. *)
Definition get_change_percentage (t : trend_result) : Q :=
  match t with
  | Metrics m => change_percentage m
  | InsufficientData => 0
  end.

(** [trend_analysis.get("volatility", 0)]. *)
Definition get_volatility (t : trend_result) : sqrtQ :=
  match t with
  | Metrics m => volatility m
  | InsufficientData => Sqrt 0
  end.

(** [trend_direction == s]; [None] equals no string. *)
Definition direction_is (d : option string) (s : string) : bool :=
  match d with
  | Some x => String.eqb x s
  | None => false
  end.

(** [x > t] for a root [x] of a non-negative radicand. *)
Definition sqrt_gtb (x : sqrtQ) (t : Q) : bool :=
  match x with
  | Sqrt v => if Qltb t 0 then true else Qltb (t * t) v
  end.

Definition _generate_insights (trend_analysis : trend_result) : list string :=
  let trend_direction := get_trend_direction trend_analysis in
  let change_pct := get_change_percentage trend_analysis in
  if direction_is trend_direction "up" && Qltb 5 change_pct then
    ["Strong positive trend detected - consider scaling current strategies"]
  else if direction_is trend_direction "down" && Qltb change_pct (-5) then
    ["Declining trend requires immediate attention and corrective action"]
  else if direction_is trend_direction "stable" then
    ["Metrics are stable - good for consistency planning"]
  else [].

(** Neither result dict holds a ["threshold"] key, so
    [trend_analysis.get("threshold", 10)] is 10. *)
Definition _generate_recommendations (trend_analysis : trend_result)
  : list string :=
  let trend_direction := get_trend_direction trend_analysis in
  let volatility := get_volatility trend_analysis in
  (if sqrt_gtb volatility 10
   then ["High volatility detected - consider implementing smoothing strategies"]
   else [])
  ++
  (if direction_is trend_direction "down"
   then ["Investigate root causes of declining performance";
         "Review and adjust current operational procedures"]
   else []).

(** What a call that can raise produces. *)
Inductive raised : Type :=
| KeyError (key : string)
| OtherError (message : string).

Inductive outcome (A : Type) : Type :=
| Return (a : A)
| Throw (e : raised).
Arguments Return {A} a.
Arguments Throw {A} e.

Definition obind {A B} (o : outcome A) (k : A -> outcome B) : outcome B :=
  match o with
  | Return a => k a
  | Throw e => Throw e
  end.

(** [{"7d": 7, "30d": 30, "90d": 90, "1y": 365}[time_period]]. *)
Definition days_back_of (time_period : string) : outcome Z :=
  match find (fun kv => String.eqb (fst kv) time_period)
             [("7d", 7%Z); ("30d", 30%Z); ("90d", 90%Z); ("1y", 365%Z)] with
  | Some kv => Return (snd kv)
  | None => Throw (KeyError time_period)
  end.

Section Trends.

(** What [ml_service.generate_forecast] returns. *)
Variable forecast_data : Type.
(** [_get_historical_data(metric_name, start_date, db)], as a function of
    the metric and of the number of days [start_date] lies back. *)
Variable _get_historical_data : string -> Z -> outcome (list Py.dict).
(** [ml_service.generate_forecast(metric_name, historical_data, days)]. *)
Variable generate_forecast :
  string -> list Py.dict -> Z -> outcome forecast_data.

Record trend_report : Type := mkReport {
  metric_name : string;
  historical_data : list Py.dict;
  trend_analysis : trend_result;
  forecast : option forecast_data;
  insights : list string;
  recommendations : list string
}.

(** [analyze_trends]; a granularity other than ["daily"] falls through the
    [if] and the function returns [None]. *)
Definition analyze_trends (metric : string) (time_period granularity : string)
    (include_forecasting : bool) : outcome (option trend_report) :=
  if String.eqb granularity "daily" then
    obind (days_back_of time_period) (fun days_back =>
    obind (_get_historical_data metric days_back) (fun data =>
    let trend := _calculate_trend_metrics data in
    obind (if include_forecasting
           then obind (generate_forecast metric data 30)
                      (fun f => Return (Some f))
           else Return None) (fun forecast_data =>
    Return (Some (mkReport metric data trend forecast_data
                    (_generate_insights trend)
                    (_generate_recommendations trend))))))
  else Return None.

(** What the [/trends] endpoint answers; the detail text of the error is
    left out. *)
Inductive trends_response : Type :=
| APIResponse (success : bool) (message : string) (data : option trend_report)
| HTTPException (status_code : Z).

(** [get_trend_analysis] of [backend/api/analytics.py]. *)
Definition get_trend_analysis (metric : string) (time_period granularity : string)
    (include_forecasting : bool) : trends_response :=
  match analyze_trends metric time_period granularity include_forecasting with
  | Return trend_data =>
      APIResponse true "Trend analysis completed successfully" trend_data
  | Throw _ => HTTPException 500
  end.

End Trends.

End AnalyticsService.

(** ** [models/schemas.py] and [ml_models/ml_service.py] *)

Module Schemas.

Inductive RiskLevel : Type := LOW | MEDIUM | HIGH | CRITICAL.

(** The string each member of the enumeration carries. *)
Definition value (r : RiskLevel) : string :=
  match r with
  | LOW => "low"
  | MEDIUM => "medium"
  | HIGH => "high"
  | CRITICAL => "critical"
  end.

(** Position in the declaration order, lowest risk first. *)
Definition rank (r : RiskLevel) : nat :=
  match r with LOW => 0 | MEDIUM => 1 | HIGH => 2 | CRITICAL => 3 end.

(** [RiskLevel(s)]: the member whose value is [s]. *)
Definition of_value (s : string) : option RiskLevel :=
  find (fun r => String.eqb (value r) s) [LOW; MEDIUM; HIGH; CRITICAL].

End Schemas.

Module ModelServing.

(** Python's [max(a, b)] and [min(a, b)] on numbers. *)
Definition max2 (a b : Q) : Q := if AnalyticsService.Qltb a b then b else a.
Definition min2 (a b : Q) : Q := if AnalyticsService.Qltb b a then b else a.

Definition MODEL_REGISTRY : list string :=
  ["demand_forecasting"; "risk_prediction"; "route_optimization"].

Record PredictionRequest : Type := mkRequest {
  features : Py.dict;
  model_type : string
}.

Inductive prediction : Type :=
| Demand (forecasted_demand : Q) (confidence_interval : Q * Q)
         (seasonal_factor : Q)
| Risk (risk_score : Q) (risk_level : string) (top_risks : list string)
| Route (optimal_route : list string) (total_distance : Q) (cost_savings : Q).

Inductive response : Type :=
| Response (p : option prediction) (confidence : Q) (model_version : string)
| HTTP400.

Definition risk_prediction (features : Py.dict) : prediction :=
  Risk (min2 100 (max2 0 (Py.get features "supplier_risk" 50)))
       (if AnalyticsService.Qltb (Py.get features "supplier_risk" 50) 70
        then "medium" else "high")
       ["delivery_delay"; "quality_issues"].

(** [predict], without the timing fields of the response. *)
Definition predict (request : PredictionRequest) : response :=
  if negb (existsb (String.eqb (model_type request)) MODEL_REGISTRY)
  then HTTP400
  else
    let prediction :=
      if String.eqb (model_type request) "demand_forecasting" then
        Some (Demand (Py.get (features request) "base_demand" 100 * 1.1)
                     (90, 110) 1.05)
      else if String.eqb (model_type request) "risk_prediction" then
        Some (risk_prediction (features request))
      else if String.eqb (model_type request) "route_optimization" then
        Some (Route ["warehouse"; "customer1"; "customer2"; "warehouse"]
                    (Py.get (features request) "base_distance" 100 * 0.9)
                    15.0)
      else None in
    Response prediction 0.85 "1.0.0".

(** The risk level [predict] reports for a request whose features hold
    [supplier_risk = s]. *)
Definition risk_level_of (s : Q) : option string :=
  match predict (mkRequest [("supplier_risk", s)] "risk_prediction") with
  | Response (Some (Risk _ level _)) _ _ => Some level
  | _ => None
  end.

End ModelServing.

(** ** The specification's formulas, written from its words *)

Module Spec.

(** [w_i = conf_i / sum conf_j]. *)
Definition weights (confs : list Q) : list Q :=
  map (fun c => c / Np.Qsum confs) confs.

(** [sum (w_i * prediction_i[d])]. *)
Definition weighted_sum (ws xs : list Q) : Q :=
  Np.Qsum (map (fun wx => fst wx * snd wx) (combine ws xs)).

(** The combined point: the weighted sum, floored at 0. *)
Definition point (ws xs : list Q) : Q := Qmax 0 (weighted_sum ws xs).

(** The unweighted average of the generators' predictions for one day. *)
Definition unweighted_average (xs : list Q) : Q := Np.mean xs.

(** The first half of a series, and the rest of it. *)
Definition first_half (l : list Q) : list Q := firstn (length l / 2) l.
Definition last_half (l : list Q) : list Q := skipn (length l / 2) l.

(** The last [n] points of a series. *)
Definition last_n (n : nat) (l : list Q) : list Q := skipn (length l - n) l.

Definition recent_avg (l : list Q) : Q :=
  if (7 <=? length l)%nat then Np.mean (last_n 7 l) else Np.mean (last_half l).

Definition earlier_avg (l : list Q) : Q := Np.mean (first_half l).

Definition change_pct (l : list Q) : Q :=
  if Qeq_dec (earlier_avg l) 0 then 0
  else (recent_avg l - earlier_avg l) / earlier_avg l * 100.

Definition direction (c : Q) : string :=
  if Qlt_le_dec 0 c then "up"
  else if Qlt_le_dec c 0 then "down" else "stable".

(** The values [value[i-w+1 .. i]] of a window of width [w] ending at [i]. *)
Definition window (w : nat) (s : list Q) (i : nat) : list Q :=
  firstn w (skipn (S i - w) s).

(** Population and sample variance of a window. *)
Definition population_variance (l : list Q) : Q := Np.sq_dev l / Np.Qlen l.
Definition sample_variance (l : list Q) : Q := Np.sq_dev l / (Np.Qlen l - 1).

(** Risk-level bucketing by the fixed thresholds 25, 50 and 75. *)
Definition bucket (s : Q) : Schemas.RiskLevel :=
  if Qlt_le_dec s 25 then Schemas.LOW
  else if Qlt_le_dec s 50 then Schemas.MEDIUM
  else if Qlt_le_dec s 75 then Schemas.HIGH
  else Schemas.CRITICAL.

End Spec.

(** ** Vocabulary of the statements *)

(** Generators whose predictions and confidence are finite numbers, as the
    first loop of the combination collects them. *)
Definition finite_gens (gens : list (list Q * Q)) : list (list pyfloat * pyfloat) :=
  map (fun g => (map Num (fst g), Num (snd g))) gens.

(** The day-[d] predictions of the generators. *)
Definition day_column (gens : list (list Q * Q)) (d : nat) : list Q :=
  map (fun g => nth d (fst g) 0) gens.

(** Python's [max(x, 0)] on a number. *)
Definition floor0 (x : Q) : Q :=
  match x ?= 0 with Lt => 0 | _ => x end.

(** Scenario A: seven observations of 100 followed by seven of 150. *)
Definition scenario_A : list Py.dict :=
  map (fun v => [("value", v)]) (repeat 100 7 ++ repeat 150 7).

(** One week of demand, 1 to 7. *)
Definition one_week : MLService.DataFrame :=
  MLService.mkDataFrame (seq 0 7) [1; 2; 3; 4; 5; 6; 7] "SKU-1".

(** Scenario C: three generators with confidences 0.9, 0.8 and 0.82 that
    predict 100, 95 and 102 for day 0. *)
Definition scenario_C : MLService.forecasts_dict :=
  [("lstm", MLService.success [Num 100] "LSTM" 0.9);
   ("random_forest", MLService.success [Num 95] "Random Forest" 0.8);
   ("gradient_boosting", MLService.success [Num 102] "Gradient Boosting" 0.82)].

(** The collected generator reports a confidence that is the number 0. *)
Definition zero_confidence (g : list pyfloat * pyfloat) : Prop :=
  exists c, snd g = Num c /\ c == 0.

(** Scenario D: every generator reports confidence 0. *)
Definition scenario_D : MLService.forecasts_dict :=
  [("random_forest", MLService.success [Num 100] "Random Forest" 0);
   ("gradient_boosting", MLService.success [Num 50] "Gradient Boosting" 0)].

(** Every generator failed. *)
Definition all_failed : MLService.forecasts_dict :=
  [("lstm", MLService.failure "TensorFlow not available")].

(** A generator state whose [n]-th variate is [n]. *)
Definition counting_state : NpRandom.RandomState :=
  NpRandom.mkRandomState (fun n => inject_Z (Z.of_nat n)) 0.

(** Two generator states that will deliver the same [n] variates from
    [off] draws ahead on. *)
Definition same_draws (off n : nat) (st1 st2 : NpRandom.RandomState) : Prop :=
  forall k, (k < n)%nat ->
            NpRandom.tape st1 (NpRandom.pos st1 + off + k)
            = NpRandom.tape st2 (NpRandom.pos st2 + off + k).

(** An empty feature dict. *)
Definition no_features : MLService.features_dict :=
  MLService.mkFeatures [] [] [] [].

(** * Properties *)

(** ** Arithmetic of finite floats *)

Section FloatFacts.

Lemma fold_left_Qplus_acc (l : list Q) (a : Q) :
  fold_left Qplus l a == a + Np.Qsum l.
Proof.
  revert a; induction l as [|x l IH]; intros a; simpl.
  - ring.
  - rewrite IH; ring.
Qed.

Lemma fold_left_fadd_Num (l : list Q) (a : Q) :
  fold_left fadd (map Num l) (Num a) = Num (fold_left Qplus l a).
Proof.
  revert a; induction l as [|x l IH]; intros a; simpl; [reflexivity|].
  apply IH.
Qed.

Lemma py_sum_Num (l : list Q) :
  py_sum (map Num l) = Num (fold_left Qplus l 0).
Proof. apply fold_left_fadd_Num. Qed.

Lemma Qsum_nonneg (l : list Q) : Forall (fun c => 0 <= c) l -> 0 <= Np.Qsum l.
Proof.
  induction 1 as [|x l Hx _ IH]; simpl; [lra|]. lra.
Qed.

Lemma Qsum_pos (l : list Q) :
  Forall (fun c => 0 <= c) l -> Exists (fun c => 0 < c) l -> 0 < Np.Qsum l.
Proof.
  intros Hall Hex; induction Hex as [x l Hx | x l _ IH]; simpl;
    inversion Hall as [|? ? Hx0 Hl]; subst.
  - pose proof (Qsum_nonneg l Hl); lra.
  - specialize (IH Hl); lra.
Qed.

Lemma Qsum_scale (l : list Q) (k : Q) :
  Np.Qsum (map (fun c => c / k) l) == Np.Qsum l / k.
Proof.
  induction l as [|x l IH]; simpl.
  - unfold Qdiv; ring.
  - rewrite IH. unfold Qdiv; ring.
Qed.

Lemma weighted_sum_scale (cs xs : list Q) (k k' : Q) :
  k == k' ->
  Spec.weighted_sum (map (fun c => c / k) cs) xs
  == Spec.weighted_sum (map (fun c => c / k') cs) xs.
Proof.
  intros Hk; unfold Spec.weighted_sum.
  revert xs; induction cs as [|c cs IH]; intros [|x xs]; simpl; try reflexivity.
  rewrite IH, Hk; reflexivity.
Qed.

Lemma pymax_Num (x : Q) : pymax (Num x) (Num 0) = Num (floor0 x).
Proof.
  unfold pymax, fgt, flt, floor0. destruct (x ?= 0); reflexivity.
Qed.

Lemma floor0_Qmax (x : Q) : floor0 x == Qmax 0 x.
Proof.
  unfold floor0. destruct (x ?= 0) eqn:E.
  - apply Qeq_alt in E. rewrite Q.max_r; [reflexivity | lra].
  - apply Qlt_alt in E. rewrite Q.max_l; [reflexivity | lra].
  - apply Qgt_alt in E. rewrite Q.max_r; [reflexivity | lra].
Qed.

End FloatFacts.

(** ** The ensemble combination *)

Section Ensemble.
Import MLService NpRandom.

Lemma mapM_ok {A B} (f : A -> result B) (g : A -> B) (l : list A) :
  (forall a, In a l -> f a = Ok (g a)) -> mapM f l = Ok (map g l).
Proof.
  induction l as [|a l IH]; intros H; simpl; [reflexivity|].
  rewrite (H a (or_introl eq_refl)); simpl.
  rewrite IH; [reflexivity|]. intros b Hb; apply H; right; exact Hb.
Qed.

Lemma create_ensemble_nonempty forecasts days st :
  predictions_list forecasts <> [] ->
  _create_ensemble_forecast forecasts days st
  = (mapM (ensemble_day (normalize (raw_weights forecasts))
                        (predictions_list forecasts))
          (seq 0 (Z.to_nat days)), st).
Proof.
  unfold _create_ensemble_forecast.
  destruct (predictions_list forecasts); [congruence | reflexivity].
Qed.

Lemma predictions_list_finite forecasts gens :
  collect forecasts = finite_gens gens ->
  predictions_list forecasts = map (fun g => map Num (fst g)) gens.
Proof.
  unfold predictions_list, finite_gens; intros ->.
  rewrite map_map; reflexivity.
Qed.

Lemma raw_weights_finite forecasts gens :
  collect forecasts = finite_gens gens ->
  raw_weights forecasts = map Num (map snd gens).
Proof.
  unfold raw_weights, finite_gens; intros ->.
  rewrite !map_map; reflexivity.
Qed.

Lemma normalize_finite (cs : list Q) :
  ~ Np.Qsum cs == 0 ->
  normalize (map Num cs)
  = map Num (map (fun c => c / fold_left Qplus cs 0) cs).
Proof.
  intros Hs; unfold normalize.
  rewrite py_sum_Num, !map_map. apply map_ext; intros c; simpl.
  destruct (Qeq_bool (fold_left Qplus cs 0) 0) eqn:E; [|reflexivity].
  apply Qeq_bool_eq in E. rewrite fold_left_Qplus_acc in E.
  exfalso; apply Hs; lra.
Qed.

Lemma combine_fmul_Num (ws xs : list Q) :
  map (fun '(w, p) => fmul w p) (combine (map Num ws) (map Num xs))
  = map Num (map (fun wx => fst wx * snd wx) (combine ws xs)).
Proof.
  revert xs; induction ws as [|w ws IH]; intros [|x xs]; simpl;
    try reflexivity.
  rewrite IH; reflexivity.
Qed.

Lemma ensemble_day_finite (ws : list Q) (gens : list (list Q * Q)) (d : nat) :
  Forall (fun g => (d < length (fst g))%nat) gens ->
  ensemble_day (map Num ws) (map (fun g => map Num (fst g)) gens) d
  = Ok (pymax (Num (fold_left Qplus
                      (map (fun wx => fst wx * snd wx)
                           (combine ws (day_column gens d))) 0))
              (Num 0)).
Proof.
  intros Hlen; unfold ensemble_day.
  rewrite (mapM_ok _ (fun p => nth d p NaN)).
  2:{ intros p Hp; unfold py_index.
      apply in_map_iff in Hp as (g & <- & Hg).
      rewrite Forall_forall in Hlen. specialize (Hlen g Hg).
      rewrite (nth_error_nth' _ NaN); [reflexivity|].
      rewrite length_map; exact Hlen. }
  simpl. rewrite map_map.
  assert (Hcol : map (fun g => nth d (map Num (fst g)) NaN) gens
                 = map Num (day_column gens d)).
  { unfold day_column; rewrite map_map. apply map_ext_in; intros g Hg.
    rewrite Forall_forall in Hlen. specialize (Hlen g Hg).
    rewrite (nth_indep _ NaN (Num 0)) by (rewrite length_map; exact Hlen).
    apply (map_nth Num). }
  rewrite Hcol, combine_fmul_Num, py_sum_Num; reflexivity.
Qed.

End Ensemble.

Section EnsembleCorrect.
Import MLService NpRandom.

Lemma Forall2_feq_map (f g : Q -> Q) (l : list Q) :
  (forall c, f c == g c) ->
  Forall2 feq (map Num (map f l)) (map Num (map g l)).
Proof.
  intros H; induction l as [|c l IH]; simpl; constructor; [apply H | exact IH].
Qed.

Lemma nth_map_seq {A} (g : nat -> A) (n d : nat) (dflt : A) :
  (d < n)%nat -> nth d (map g (seq 0 n)) dflt = g d.
Proof.
  intros Hd. rewrite (nth_indep _ dflt (g 0%nat)) by (rewrite length_map, length_seq; exact Hd).
  rewrite map_nth, seq_nth by exact Hd. reflexivity.
Qed.

(** The weights of finite generators with a non-zero confidence sum. *)
Lemma weights_finite forecasts gens :
  collect forecasts = finite_gens gens ->
  ~ Np.Qsum (map snd gens) == 0 ->
  normalize (raw_weights forecasts)
  = map Num (map (fun c => c / fold_left Qplus (map snd gens) 0)
                 (map snd gens)).
Proof.
  intros Hcol Hne. rewrite (raw_weights_finite _ _ Hcol).
  apply normalize_finite, Hne.
Qed.

(** The combination of finite generators yields finite points, one per day,
    each the floored weighted sum, and leaves the random generator alone. *)
Lemma ensemble_finite forecasts days st gens :
  collect forecasts = finite_gens gens ->
  Forall (fun g => 0 <= snd g) gens ->
  Exists (fun g => 0 < snd g) gens ->
  Forall (fun g => (Z.to_nat days <= length (fst g))%nat) gens ->
  exists qs,
    _create_ensemble_forecast forecasts days st = (Ok (map Num qs), st) /\
    length qs = Z.to_nat days /\
    forall d, (d < Z.to_nat days)%nat ->
      nth d qs 0
      == Spec.point (Spec.weights (map snd gens)) (day_column gens d).
Proof.
  intros Hcol Hnn Hex Hlen.
  pose (cs := map snd gens).
  assert (Hpos : 0 < Np.Qsum cs).
  { apply Qsum_pos; [apply Forall_map | apply Exists_map]; assumption. }
  assert (Hne : ~ Np.Qsum cs == 0) by lra.
  assert (Hk : fold_left Qplus cs 0 == Np.Qsum cs).
  { rewrite fold_left_Qplus_acc; ring. }
  rewrite create_ensemble_nonempty.
  2:{ rewrite (predictions_list_finite _ _ Hcol). destruct Hex; discriminate. }
  rewrite (predictions_list_finite _ _ Hcol), (weights_finite _ _ Hcol Hne).
  fold cs.
  set (point := fun d =>
    floor0 (fold_left Qplus
              (map (fun wx => fst wx * snd wx)
                   (combine (map (fun c => c / fold_left Qplus cs 0) cs)
                            (day_column gens d))) 0)).
  exists (map point (seq 0 (Z.to_nat days))).
  split; [|split].
  - f_equal. rewrite (map_map point Num).
    apply mapM_ok; intros d Hd. apply in_seq in Hd.
    unfold point; rewrite <- pymax_Num. apply ensemble_day_finite.
    eapply Forall_impl; [|exact Hlen]. simpl; intros g Hg; lia.
  - rewrite length_map, length_seq; reflexivity.
  - intros d Hd. rewrite nth_map_seq by exact Hd. unfold point.
    rewrite floor0_Qmax. unfold Spec.point, Spec.weights. fold cs.
    rewrite fold_left_Qplus_acc, Qplus_0_l.
    rewrite (weighted_sum_scale cs (day_column gens d) _ _ Hk).
    reflexivity.
Qed.

(** C1. For generators with finite predictions, non-negative confidences of
    which one at least is positive, and predictions for every requested day:
    the normalised weights are [conf_i / sum conf_j] and sum to 1, and the
    combined point of each day is the weighted sum of that day's predictions
    floored at 0.  On scenario C the weights are within 0.001 of
    [0.357, 0.317, 0.325] and the day-0 point is within 0.1 of 99.0. *)
Theorem ensemble_combination_correct :
  (forall forecasts days st gens,
      collect forecasts = finite_gens gens ->
      Forall (fun g => 0 <= snd g) gens ->
      Exists (fun g => 0 < snd g) gens ->
      Forall (fun g => (Z.to_nat days <= length (fst g))%nat) gens ->
      let ws := Spec.weights (map snd gens) in
      Forall2 feq (normalize (raw_weights forecasts)) (map Num ws) /\
      Np.Qsum ws == 1 /\
      exists qs,
        _create_ensemble_forecast forecasts days st = (Ok (map Num qs), st) /\
        length qs = Z.to_nat days /\
        forall d, (d < Z.to_nat days)%nat ->
          nth d qs 0 == Spec.point ws (day_column gens d))
  /\
  (exists w1 w2 w3 p,
      normalize (raw_weights scenario_C) = [Num w1; Num w2; Num w3] /\
      Qabs (w1 - 0.357) < 0.001 /\
      Qabs (w2 - 0.317) < 0.001 /\
      Qabs (w3 - 0.325) < 0.001 /\
      (forall st, _create_ensemble_forecast scenario_C 1 st = (Ok [Num p], st)) /\
      Qabs (p - 99.0) < 0.1).
Proof.
  split.
  - intros forecasts days st gens Hcol Hnn Hex Hlen ws.
    assert (Hpos : 0 < Np.Qsum (map snd gens)).
    { apply Qsum_pos; [apply Forall_map | apply Exists_map]; assumption. }
    assert (Hne : ~ Np.Qsum (map snd gens) == 0) by lra.
    split; [|split].
    + rewrite (weights_finite _ _ Hcol Hne).
      apply Forall2_feq_map; intros c.
      rewrite fold_left_Qplus_acc, Qplus_0_l; reflexivity.
    + unfold ws, Spec.weights. rewrite Qsum_scale. field; exact Hne.
    + apply ensemble_finite; assumption.
  - exists (0.9 / (0 + 0.9 + 0.8 + 0.82)), (0.8 / (0 + 0.9 + 0.8 + 0.82)),
      (0.82 / (0 + 0.9 + 0.8 + 0.82)).
    eexists. split; [reflexivity|].
    split; [vm_compute; reflexivity|].
    split; [vm_compute; reflexivity|].
    split; [vm_compute; reflexivity|].
    split; [intros st; reflexivity|].
    vm_compute; reflexivity.
Qed.

End EnsembleCorrect.

Lemma ensemble_combination_correct_witness :
  Np.Qsum (Spec.weights [0.9; 0.8; 0.82]) == 1.
Proof.
  refine (proj1 (proj2 (proj1 ensemble_combination_correct
                          scenario_C 1%Z counting_state
                          [([100], 0.9); ([95], 0.8); ([102], 0.82)]
                          _ _ _ _))).
  - reflexivity.
  - repeat constructor; vm_compute; discriminate.
  - constructor; vm_compute; reflexivity.
  - repeat constructor.
Defined.

Section ZeroConfidence.
Import MLService NpRandom.

Lemma fold_fadd_zero (l : list (list pyfloat * pyfloat)) (a : Q) :
  a == 0 -> Forall zero_confidence l ->
  exists z, fold_left fadd (map snd l) (Num a) = Num z /\ z == 0.
Proof.
  revert a; induction l as [|g l IH]; intros a Ha Hl; simpl.
  - exists a; split; [reflexivity | exact Ha].
  - inversion Hl as [|? ? (c & Hc & Hc0) Hl']; subst.
    rewrite Hc; simpl. apply IH; [lra | exact Hl'].
Qed.

Lemma normalize_zero (l : list (list pyfloat * pyfloat)) :
  Forall zero_confidence l ->
  normalize (map snd l) = map (fun _ => NaN) l.
Proof.
  intros Hl; unfold normalize, py_sum.
  destruct (fold_fadd_zero l 0 (Qeq_refl 0) Hl) as (z & -> & Hz).
  rewrite map_map. apply map_ext_in; intros g Hg.
  rewrite Forall_forall in Hl. destruct (Hl g Hg) as (c & -> & Hc).
  simpl. apply Qeq_bool_iff in Hz; rewrite Hz.
  apply Qeq_alt in Hc; rewrite Hc; reflexivity.
Qed.

Lemma fold_fadd_nan (l : list pyfloat) : fold_left fadd l NaN = NaN.
Proof. induction l as [|x l IH]; simpl; [reflexivity | exact IH]. Qed.

Lemma weighted_nan {A} (l : list A) (xs : list pyfloat) :
  l <> [] -> length xs = length l ->
  py_sum (map (fun '(w, p) => fmul w p) (combine (map (fun _ => NaN) l) xs))
  = NaN.
Proof.
  destruct l as [|a l]; [congruence|]; intros _ Hlen.
  destruct xs as [|x xs]; [discriminate|].
  unfold py_sum; simpl. apply fold_fadd_nan.
Qed.

Lemma ensemble_day_zero (l : list (list pyfloat * pyfloat)) (d : nat) :
  l <> [] -> Forall (fun g => (d < length (fst g))%nat) l ->
  ensemble_day (map (fun _ => NaN) l) (map fst l) d = Ok NaN.
Proof.
  intros Hne Hlen; unfold ensemble_day.
  rewrite (mapM_ok _ (fun p => nth d p NaN)).
  2:{ intros p Hp; unfold py_index.
      apply in_map_iff in Hp as (g & <- & Hg).
      rewrite Forall_forall in Hlen.
      rewrite (nth_error_nth' _ NaN (Hlen g Hg)); reflexivity. }
  simpl. rewrite weighted_nan; [reflexivity | exact Hne |].
  rewrite !length_map; reflexivity.
Qed.

Lemma map_const_seq {A} (a : A) (n k : nat) :
  map (fun _ => a) (seq k n) = repeat a n.
Proof.
  revert k; induction n as [|n IH]; intros k; simpl; [reflexivity|].
  rewrite IH; reflexivity.
Qed.

(** C3, as the code has it.  There is no fallback to an unweighted average:
    when every generator that produced predictions reports confidence 0, the
    normalisation divides 0 by 0 and the combined point of every day is
    [nan]. *)
Theorem zero_confidence_yields_nan forecasts days st :
  collect forecasts <> [] ->
  Forall zero_confidence (collect forecasts) ->
  Forall (fun g => (Z.to_nat days <= length (fst g))%nat) (collect forecasts) ->
  _create_ensemble_forecast forecasts days st
  = (Ok (repeat NaN (Z.to_nat days)), st).
Proof.
  intros Hne Hzero Hlen.
  rewrite create_ensemble_nonempty.
  2:{ unfold predictions_list; destruct (collect forecasts);
      [congruence | discriminate]. }
  unfold raw_weights, predictions_list.
  rewrite (normalize_zero _ Hzero).
  rewrite (mapM_ok _ (fun _ => NaN)), map_const_seq; [reflexivity|].
  intros d Hd; apply in_seq in Hd.
  apply ensemble_day_zero; [exact Hne|].
  eapply Forall_impl; [|exact Hlen]. simpl; intros g Hg; lia.
Qed.

Lemma zero_confidence_yields_nan_witness :
  _create_ensemble_forecast scenario_D 1 counting_state
  = (Ok [NaN], counting_state).
Proof.
  apply (zero_confidence_yields_nan scenario_D 1 counting_state).
  - discriminate.
  - repeat constructor; eexists; (split; [reflexivity|]); reflexivity.
  - repeat constructor.
Defined.

(** On scenario D the unweighted average of the day-0 predictions is 75,
    and the combination returns [nan]. *)
Lemma zero_confidence_counterexample :
  Spec.unweighted_average [100; 50] == 75 /\
  exists x,
    fst (_create_ensemble_forecast scenario_D 1 counting_state) = Ok [x] /\
    ~ feq x (Num (Spec.unweighted_average [100; 50])).
Proof.
  split; [reflexivity|].
  exists NaN; split; [reflexivity|]. simpl; tauto.
Qed.

End ZeroConfidence.

(** ** Failed generators *)

Section GeneratorFailure.
Import MLService NpRandom.

Lemma collect_filter (forecasts : forecasts_dict) :
  collect (filter (fun kf => has_predictions (snd kf)) forecasts)
  = collect forecasts.
Proof.
  induction forecasts as [|[k f] rest IH]; [reflexivity|].
  cbn [filter snd collect]. unfold has_predictions at 1.
  destruct (predictions f) eqn:E.
  - cbn [collect snd]. rewrite E, IH; reflexivity.
  - exact IH.
Qed.

Lemma collect_all_succeeded (forecasts : forecasts_dict) :
  forallb (fun kf => has_predictions (snd kf)) forecasts = true ->
  raw_weights forecasts = map (fun kf => get_confidence (snd kf)) forecasts.
Proof.
  unfold raw_weights.
  induction forecasts as [|[k f] rest IH]; simpl; [reflexivity|].
  unfold has_predictions at 1; destruct (predictions f); simpl;
    [|discriminate].
  intros H; rewrite IH by exact H; reflexivity.
Qed.

Lemma collect_none (forecasts : forecasts_dict) :
  Forall (fun kf => predictions (snd kf) = None) forecasts ->
  collect forecasts = [].
Proof.
  induction 1 as [|[k f] rest Hf _ IH]; simpl; [reflexivity|].
  simpl in Hf; rewrite Hf; exact IH.
Qed.

(** C4, as the code has it.  Generators without predictions are dropped and
    the confidences of the remaining ones are normalised among themselves;
    when no generator produced predictions the combination does not raise:
    it returns one value [100 + normal(0, 10)] per requested day. *)
Theorem failed_generators_dropped :
  (forall forecasts days st,
      let remaining := filter (fun kf => has_predictions (snd kf)) forecasts in
      _create_ensemble_forecast forecasts days st
      = _create_ensemble_forecast remaining days st /\
      normalize (raw_weights forecasts)
      = normalize (map (fun kf => get_confidence (snd kf)) remaining))
  /\
  (forall forecasts days st,
      Forall (fun kf => predictions (snd kf) = None) forecasts ->
      _create_ensemble_forecast forecasts days st
      = (Ok (map (fun x => Num (100 + x))
                 (fst (normal_n 0 10 (Z.to_nat days) st))),
         snd (normal_n 0 10 (Z.to_nat days) st))).
Proof.
  split.
  - intros forecasts days st remaining.
    assert (Hc : collect remaining = collect forecasts)
      by apply collect_filter.
    split.
    + unfold _create_ensemble_forecast, predictions_list, raw_weights.
      rewrite Hc; reflexivity.
    + rewrite <- (collect_all_succeeded remaining).
      * unfold raw_weights; rewrite Hc; reflexivity.
      * apply forallb_forall; intros kf Hkf.
        apply filter_In in Hkf; tauto.
  - intros forecasts days st Hnone.
    unfold _create_ensemble_forecast, predictions_list.
    rewrite (collect_none _ Hnone); simpl.
    destruct (normal_n 0 10 (Z.to_nat days) st); reflexivity.
Qed.

Lemma failed_generators_dropped_witness :
  _create_ensemble_forecast all_failed 2 counting_state
  = (Ok [Num (100 + (0 + 10 * 0)); Num (100 + (0 + 10 * 1))],
     mkRandomState (tape counting_state) 2).
Proof.
  apply (proj2 failed_generators_dropped all_failed 2%Z counting_state).
  repeat constructor.
Defined.

(** With no successful generator the combination returns a forecast, it
    does not raise. *)
Lemma no_generator_counterexample :
  exists pts,
    fst (_create_ensemble_forecast all_failed 1 counting_state) = Ok pts /\
    (forall e, fst (_create_ensemble_forecast all_failed 1 counting_state)
               <> Raise e) /\
    fst (_create_ensemble_forecast [] 1 counting_state) = Ok pts.
Proof.
  eexists; split; [reflexivity|]. split; [|reflexivity].
  intros e; discriminate.
Qed.

End GeneratorFailure.

(** ** Trend metrics *)

Section Trend.
Import AnalyticsService.

Lemma clamp_neg (n : nat) (k : Z) :
  (k < 0)%Z -> Py.clamp n k = Z.to_nat (Z.of_nat n + k).
Proof.
  intros Hk; unfold Py.clamp.
  destruct (Z.ltb_spec k 0); [|lia].
  destruct (Z.max_spec 0 (Z.of_nat n + k)) as [[? ->]|[? ->]]; lia.
Qed.

Lemma slice_last7 (l : list Q) :
  Py.slice_from l (-7) = Spec.last_n 7 l.
Proof.
  unfold Py.slice_from, Spec.last_n.
  rewrite clamp_neg by lia. f_equal; lia.
Qed.

Lemma half_floor (n : nat) :
  (1 <= n)%nat ->
  Py.clamp n ((- Z.of_nat n) / 2) = (n / 2)%nat.
Proof.
  intros Hn.
  assert (Hneg : ((- Z.of_nat n) / 2 < 0)%Z).
  { apply Z.div_lt_upper_bound; lia. }
  rewrite clamp_neg by exact Hneg.
  apply Nat2Z.inj. rewrite Nat2Z.inj_div, Z2Nat.id.
  - replace (Z.of_nat n) with (- Z.of_nat n + Z.of_nat n * 2)%Z at 3 by lia.
    rewrite Z.div_add by lia. change (Z.of_nat 2) with 2%Z. lia.
  - pose proof (Z.mul_div_le (- Z.of_nat n) 2 ltac:(lia)).
    pose proof (Z.mod_pos_bound (- Z.of_nat n) 2 ltac:(lia)).
    pose proof (Z.div_mod (- Z.of_nat n) 2 ltac:(lia)). lia.
Qed.

Lemma slice_last_half (l : list Q) :
  (1 <= length l)%nat ->
  Py.slice_from l ((- Py.len l) / 2) = Spec.last_half l.
Proof.
  intros Hn; unfold Py.slice_from, Spec.last_half, Py.len.
  rewrite half_floor by exact Hn; reflexivity.
Qed.

Lemma slice_first_half (l : list Q) :
  Py.slice_to l (Py.len l / 2) = Spec.first_half l.
Proof.
  unfold Py.slice_to, Spec.first_half, Py.len, Py.clamp. f_equal.
  assert (H : (0 <= Z.of_nat (length l) / 2 <= Z.of_nat (length l))%Z).
  { split; [apply Z.div_pos; lia|].
    apply Z.div_le_upper_bound; lia. }
  destruct (Z.ltb_spec (Z.of_nat (length l) / 2) 0); [lia|].
  rewrite Z.min_l by lia.
  apply Nat2Z.inj. rewrite Nat2Z.inj_div, Z2Nat.id by lia. reflexivity.
Qed.

Lemma recent_avg_spec (values : list Q) :
  (1 <= length values)%nat -> recent_avg values = Spec.recent_avg values.
Proof.
  intros Hn; unfold recent_avg, Spec.recent_avg, Py.len.
  destruct (Z.leb_spec 7 (Z.of_nat (length values)));
    destruct (Nat.leb_spec 7 (length values)); try lia.
  - rewrite slice_last7; reflexivity.
  - rewrite <- slice_last_half by exact Hn; reflexivity.
Qed.

Lemma earlier_avg_spec (values : list Q) :
  (2 <= length values)%nat -> earlier_avg values = Spec.earlier_avg values.
Proof.
  intros Hn; unfold earlier_avg, Spec.earlier_avg.
  destruct (Z.leb_spec 2 (Py.len values)); [|unfold Py.len in *; lia].
  rewrite slice_first_half; reflexivity.
Qed.

Lemma Qltb_lt (a b : Q) : Qltb a b = true <-> a < b.
Proof.
  unfold Qltb. rewrite Qlt_alt.
  destruct (a ?= b); split; congruence.
Qed.

Lemma direction_spec (c : Q) :
  (if Qltb 0 c then "up" else if Qltb c 0 then "down" else "stable")
  = Spec.direction c.
Proof.
  unfold Spec.direction.
  destruct (Qlt_le_dec 0 c) as [H|H].
  - apply Qltb_lt in H; rewrite H; reflexivity.
  - destruct (Qltb 0 c) eqn:E; [apply Qltb_lt in E; lra|].
    destruct (Qlt_le_dec c 0) as [H'|H'].
    + apply Qltb_lt in H'; rewrite H'; reflexivity.
    + destruct (Qltb c 0) eqn:E'; [apply Qltb_lt in E'; lra | reflexivity].
Qed.

Lemma change_pct_spec (values : list Q) :
  (2 <= length values)%nat -> change_pct values == Spec.change_pct values.
Proof.
  intros Hn; unfold change_pct, Spec.change_pct.
  rewrite recent_avg_spec, earlier_avg_spec by lia.
  destruct (Qeq_dec (Spec.earlier_avg values) 0) as [H|H].
  - apply Qeq_bool_iff in H; rewrite H; reflexivity.
  - destruct (Qeq_bool (Spec.earlier_avg values) 0) eqn:E;
      [apply Qeq_bool_iff in E; contradiction | reflexivity].
Qed.

(** C2. For a series of at least two records: the recent average is the
    mean of the last 7 values, or of the last half (what follows the first
    half) when there are fewer than 7; the earlier average is the mean of
    the first half, which is the first value when there are two; the change
    is [(recent - earlier) / earlier * 100], or 0 when the earlier average is
    0; the direction follows the sign of the change.  Scenario A gives 150,
    100, 50 and "up".  A shorter series gives the sentinel. *)
Theorem trend_metrics_correct :
  (forall data,
      (2 <= length data)%nat ->
      let values := values_of data in
      recent_avg values = Spec.recent_avg values /\
      earlier_avg values = Np.mean (Spec.first_half values) /\
      (length data = 2%nat -> earlier_avg values == hd 0 values) /\
      exists m,
        _calculate_trend_metrics data = Metrics m /\
        change_percentage m == Spec.change_pct values /\
        trend_direction m = Spec.direction (change_percentage m))
  /\
  (forall data,
      (length data < 2)%nat -> _calculate_trend_metrics data = InsufficientData)
  /\
  (recent_avg (values_of scenario_A) == 150 /\
   earlier_avg (values_of scenario_A) == 100 /\
   exists m,
     _calculate_trend_metrics scenario_A = Metrics m /\
     change_percentage m == 50 /\
     trend_direction m = "up").
Proof.
  split; [|split].
  - intros data Hn values.
    assert (Hv : length values = length data) by apply length_map.
    split; [apply recent_avg_spec; lia|].
    split; [apply earlier_avg_spec; lia|].
    split.
    + intros H2. rewrite earlier_avg_spec by lia.
      unfold Spec.earlier_avg, Spec.first_half. rewrite Hv, H2.
      rewrite H2 in Hv. clearbody values.
      destruct values as [|a [|b [|c vs]]]; try discriminate.
      change (Np.mean [a] == a).
      unfold Np.mean, Np.Qlen, Np.Qsum; cbn [fold_right length].
      change (inject_Z (Z.of_nat 1)) with 1. field.
    + unfold _calculate_trend_metrics.
      destruct (Z.ltb_spec (Py.len data) 2); [unfold Py.len in *; lia|].
      eexists; split; [reflexivity|]. simpl.
      split; [apply change_pct_spec; fold values; lia | apply direction_spec].
  - intros data Hn. unfold _calculate_trend_metrics.
    destruct (Z.ltb_spec (Py.len data) 2);
      [reflexivity | unfold Py.len in *; lia].
  - split; [vm_compute; reflexivity|]. split; [vm_compute; reflexivity|].
    eexists; split; [reflexivity|].
    split; vm_compute; reflexivity.
Qed.

Lemma trend_metrics_correct_witness :
  recent_avg (values_of scenario_A) = Spec.recent_avg (values_of scenario_A).
Proof.
  refine (proj1 (proj1 trend_metrics_correct scenario_A _)).
  simpl; lia.
Defined.

Lemma Qsum_zeros (l : list Q) : Forall (fun x => x == 0) l -> Np.Qsum l == 0.
Proof.
  induction 1 as [|x l Hx _ IH]; simpl; [reflexivity|]. rewrite Hx, IH; ring.
Qed.

Lemma mean_zeros (l : list Q) : Forall (fun x => x == 0) l -> Np.mean l == 0.
Proof.
  intros H; unfold Np.mean. rewrite (Qsum_zeros _ H). unfold Qdiv; ring.
Qed.

Lemma Forall_firstn {A} (P : A -> Prop) (k : nat) (l : list A) :
  Forall P l -> Forall P (firstn k l).
Proof.
  intros H; revert k; induction H as [|x l Hx _ IH]; intros [|k]; simpl;
    constructor; [exact Hx | apply IH].
Qed.

Lemma get_missing (item : Py.dict) (key : string) (default : Q) :
  Py.has_key item key = false -> Py.get item key default = default.
Proof.
  induction item as [|[k v] rest IH]; simpl; [reflexivity|].
  destruct (String.eqb k key); simpl; [discriminate | exact IH].
Qed.

Lemma values_all_missing (data : list Py.dict) :
  Forall (fun item => Py.has_key item "value" = false) data ->
  values_of data = repeat 0 (length data).
Proof.
  induction 1 as [|item data Hi _ IH]; simpl; [reflexivity|].
  rewrite (get_missing _ _ _ Hi). f_equal; exact IH.
Qed.



End Trend.

(** ** Rolling-window features *)

Section Rolling.
Import MLService.

Lemma nth_error_rolling {A} (w : nat) (f : list Q -> option A) (s : list Q)
    (i : nat) :
  (i < length s)%nat ->
  nth_error (Pd.rolling w f s) i
  = Some (if (length (Pd.window_at w s i) <? w)%nat then None
          else f (Pd.window_at w s i)).
Proof.
  intros Hi; unfold Pd.rolling.
  rewrite nth_error_map, nth_error_seq.
  destruct (Nat.ltb_spec i (length s)); [reflexivity | lia].
Qed.

Lemma length_window_at (w : nat) (s : list Q) (i : nat) :
  (i < length s)%nat -> length (Pd.window_at w s i) = Nat.min (S i) w.
Proof.
  intros Hi; unfold Pd.window_at.
  rewrite length_firstn, length_skipn. lia.
Qed.

Lemma window_at_full (w : nat) (s : list Q) (i : nat) :
  (w - 1 <= i)%nat -> (1 <= w)%nat -> Pd.window_at w s i = Spec.window w s i.
Proof.
  intros Hw H1; unfold Pd.window_at, Spec.window. f_equal; lia.
Qed.

Lemma rolling_mean_at (w : nat) (s : list Q) (i : nat) :
  (1 <= w)%nat -> (i < length s)%nat ->
  nth_error (Pd.rolling_mean w s) i
  = Some (if (w - 1 <=? i)%nat then Some (Np.mean (Spec.window w s i))
          else None).
Proof.
  intros Hw Hi; unfold Pd.rolling_mean.
  rewrite nth_error_rolling by exact Hi.
  pose proof (length_window_at w s i Hi) as Hlen. rewrite Hlen.
  destruct (Nat.leb_spec (w - 1) i) as [Hfull|Hshort].
  - destruct (Nat.ltb_spec (Nat.min (S i) w) w); [lia|].
    rewrite <- window_at_full by assumption.
    revert Hlen; destruct (Pd.window_at w s i); intros Hlen;
      [cbn [length] in Hlen; lia | reflexivity].
  - destruct (Nat.ltb_spec (Nat.min (S i) w) w); [reflexivity | lia].
Qed.

Lemma rolling_std_at (w : nat) (s : list Q) (i : nat) :
  (2 <= w)%nat -> (i < length s)%nat ->
  nth_error (Pd.rolling_std w s) i
  = Some (if (w - 1 <=? i)%nat
          then Some (Sqrt (Spec.sample_variance (Spec.window w s i)))
          else None).
Proof.
  intros Hw Hi; unfold Pd.rolling_std.
  rewrite nth_error_rolling by exact Hi.
  pose proof (length_window_at w s i Hi) as Hlen. rewrite Hlen.
  destruct (Nat.leb_spec (w - 1) i) as [Hfull|Hshort].
  - destruct (Nat.ltb_spec (Nat.min (S i) w) w); [lia|].
    destruct (Nat.leb_spec (Nat.min (S i) w) 1); [lia|].
    rewrite window_at_full by lia. reflexivity.
  - destruct (Nat.ltb_spec (Nat.min (S i) w) w); [reflexivity | lia].
Qed.

(** C6, as the code has it.  For each window [w] of 7, 14 and 30 the
    feature dict holds a rolling mean and a rolling standard deviation
    column; their entry at index [i] is present exactly when [i >= w - 1];
    the mean is the arithmetic mean of [value[i-w+1 .. i]] and the standard
    deviation is the sample standard deviation (divisor [w - 1]) of the same
    values. *)
Theorem rolling_window_features (data : DataFrame) (w i : nat) :
  In w [7; 14; 30]%nat ->
  (i < length (demand data))%nat ->
  let features := _prepare_demand_features data in
  let obs := Spec.window w (demand data) i in
  exists means stds,
    In (w, means) (demand_rolling_mean features) /\
    In (w, stds) (demand_rolling_std features) /\
    nth_error means i
    = Some (if (w - 1 <=? i)%nat then Some (Np.mean obs) else None) /\
    nth_error stds i
    = Some (if (w - 1 <=? i)%nat
            then Some (Sqrt (Spec.sample_variance obs)) else None) /\
    sqrt_val (Sqrt (Spec.sample_variance obs))
    = sqrt (Q2R (Np.sq_dev obs / (Np.Qlen obs - 1))).
Proof.
  intros Hw Hi features obs.
  exists (Pd.rolling_mean w (demand data)), (Pd.rolling_std w (demand data)).
  assert (H2 : (2 <= w)%nat) by (simpl in Hw; lia).
  split; [|split; [|split; [|split]]].
  - simpl in *; intuition (subst; auto).
  - simpl in *; intuition (subst; auto).
  - apply rolling_mean_at; [lia | exact Hi].
  - apply rolling_std_at; [exact H2 | exact Hi].
  - reflexivity.
Qed.

Lemma rolling_window_features_witness :
  exists means stds,
    nth_error means 6 = Some (Some (Np.mean [1; 2; 3; 4; 5; 6; 7])) /\
    nth_error stds 6
    = Some (Some (Sqrt (Spec.sample_variance [1; 2; 3; 4; 5; 6; 7]))).
Proof.
  destruct (rolling_window_features one_week 7 6) as (m & s & _ & _ & Hm & Hs & _).
  - simpl; tauto.
  - simpl; lia.
  - exists m, s; split; [exact Hm | exact Hs].
Defined.

(** On one week of demand 1..7 the seventh rolling standard deviation is
    the root of 14/3, while the population standard deviation of the window
    is 2. *)
Lemma rolling_std_counterexample :
  exists x,
    nth_error (Pd.rolling_std 7 (demand one_week)) 6 = Some (Some x) /\
    In (7%nat, Pd.rolling_std 7 (demand one_week))
       (demand_rolling_std (_prepare_demand_features one_week)) /\
    sqrt_val x
    <> sqrt (Q2R (Spec.population_variance (Spec.window 7 (demand one_week) 6))).
Proof.
  eexists; split; [reflexivity|]. split; [simpl; tauto|].
  unfold sqrt_val; intros H.
  apply sqrt_inj in H.
  - apply eqR_Qeq in H. vm_compute in H. discriminate.
  - rewrite <- RMicromega.Q2R_0. apply Qle_Rle. vm_compute; discriminate.
  - rewrite <- RMicromega.Q2R_0. apply Qle_Rle. vm_compute; discriminate.
Qed.

End Rolling.

(** ** Risk levels *)

Section RiskLevel.
Import Schemas ModelServing.

Lemma value_inj (r1 r2 : RiskLevel) : value r1 = value r2 -> r1 = r2.
Proof. destruct r1, r2; simpl; intros H; try reflexivity; discriminate. Qed.

Lemma risk_level_of_threshold (s : Q) :
  risk_level_of s = Some (value (if Qlt_le_dec s 70 then MEDIUM else HIGH)).
Proof.
  unfold risk_level_of, predict, risk_prediction; simpl.
  destruct (Qlt_le_dec s 70) as [H|H].
  - apply Qltb_lt in H; rewrite H; reflexivity.
  - destruct (AnalyticsService.Qltb s 70) eqn:E;
      [apply Qltb_lt in E; lra | reflexivity].
Qed.

(** C8, as the code has it.  The only risk level the code computes is the
    one of [predict]: "medium" when [supplier_risk] (50 when absent) is
    below 70 and "high" otherwise, next to a score clamped to [0, 100]; the
    thresholds 25, 50 and 75 and the levels "low" and "critical" do not
    occur.  The level is monotone: a smaller score never gets a higher
    level. *)
Theorem risk_level_two_buckets :
  (forall feats,
      let s := Py.get feats "supplier_risk" 50 in
      predict (mkRequest feats "risk_prediction")
      = Response
          (Some (Risk (min2 100 (max2 0 s))
                      (value (if Qlt_le_dec s 70 then MEDIUM else HIGH))
                      ["delivery_delay"; "quality_issues"]))
          0.85 "1.0.0")
  /\
  (forall s1 s2 r1 r2,
      s1 < s2 ->
      risk_level_of s1 = Some (value r1) ->
      risk_level_of s2 = Some (value r2) ->
      (rank r1 <= rank r2)%nat).
Proof.
  split.
  - intros feats s. unfold predict, risk_prediction; simpl. fold s.
    destruct (Qlt_le_dec s 70) as [H|H].
    + apply Qltb_lt in H; rewrite H; reflexivity.
    + destruct (AnalyticsService.Qltb s 70) eqn:E;
        [apply Qltb_lt in E; lra | reflexivity].
  - intros s1 s2 r1 r2 Hlt H1 H2.
    rewrite risk_level_of_threshold in H1, H2.
    injection H1 as H1; injection H2 as H2.
    apply value_inj in H1, H2; subst.
    destruct (Qlt_le_dec s1 70), (Qlt_le_dec s2 70); simpl; try lia; lra.
Qed.

Lemma risk_level_two_buckets_witness : (rank MEDIUM <= rank HIGH)%nat.
Proof.
  apply (proj2 risk_level_two_buckets 10 80 MEDIUM HIGH); reflexivity.
Defined.

(** A score of 10 is bucketed LOW by the thresholds 25/50/75 and a score of
    80 CRITICAL; [predict] reports "medium" and "high". *)
Lemma risk_bucket_counterexample :
  risk_level_of 10 = Some "medium" /\
  risk_level_of 10 <> Some (value (Spec.bucket 10)) /\
  risk_level_of 80 = Some "high" /\
  risk_level_of 80 <> Some (value (Spec.bucket 80)).
Proof.
  repeat split; try reflexivity; vm_compute; discriminate.
Qed.

End RiskLevel.

(** ** The random generator and the forecasting stage *)

Section Determinism.
Import MLService NpRandom.

(** The state after [n] more variates have been consumed. *)
Lemma predict_loop_tape (b loc scale : Q) (n : nat) (st : RandomState) :
  predict_loop b loc scale n st
  = (map (fun k => pymax (Num (b + (loc + scale * tape st (pos st + k))))
                         (Num 0))
         (seq 0 n),
     mkRandomState (tape st) (pos st + n)).
Proof.
  revert st; induction n as [|n IH]; intros [t p]; simpl.
  - rewrite Nat.add_0_r; reflexivity.
  - rewrite IH; simpl. rewrite Nat.add_0_r. f_equal.
    + f_equal. rewrite <- seq_shift, map_map.
      apply map_ext; intros k. rewrite Nat.add_succ_r; reflexivity.
    + rewrite Nat.add_succ_r; reflexivity.
Qed.

Lemma predict_loop_agree (b loc scale : Q) (off n : nat) (st1 st2 : RandomState) :
  same_draws off n st1 st2 ->
  fst (predict_loop b loc scale n (mkRandomState (tape st1) (pos st1 + off)))
  = fst (predict_loop b loc scale n (mkRandomState (tape st2) (pos st2 + off))).
Proof.
  intros H; rewrite !predict_loop_tape; simpl.
  apply map_ext_in; intros k Hk. apply in_seq in Hk.
  rewrite (H k) by lia. reflexivity.
Qed.

Lemma same_draws_sub (off n off' n' : nat) (st1 st2 : RandomState) :
  same_draws off n st1 st2 -> (off <= off')%nat -> (off' + n' <= off + n)%nat ->
  same_draws off' n' st1 st2.
Proof.
  intros H Ho Hn k Hk.
  specialize (H (off' - off + k)%nat ltac:(lia)).
  replace (pos st1 + off + (off' - off + k))%nat
    with (pos st1 + off' + k)%nat in H by lia.
  replace (pos st2 + off + (off' - off + k))%nat
    with (pos st2 + off' + k)%nat in H by lia.
  exact H.
Qed.

(** C7, as the code has it.  The generators do not consult the features:
    their predictions are fixed by the horizon and by the variates NumPy's
    global generator delivers next.  Two invocations of the forecasting
    stage produce the same forecasts whenever the generator is about to
    deliver the same [3 * days] variates, and the stage with at least one
    successful generator draws nothing in the combination.  Inside
    [predict_demand] the generator is reseeded with 42 before every run, so
    its result does not depend on the state it is entered with. *)
Theorem forecasts_fixed_by_generator_state :
  (forall tf features days st,
      _predict_with_random_forest features days st
      = (success
           (map (fun k => pymax (Num (95 + (5 + 8 * tape st (pos st + k))))
                                (Num 0))
                (seq 0 (Z.to_nat days)))
           "Random Forest" 0.80,
         mkRandomState (tape st) (pos st + Z.to_nat days)) /\
      snd (ensemble_forecaster tf features days st)
      = mkRandomState (tape st)
          (pos st + (if tf then 3 else 2) * Z.to_nat days))
  /\
  (forall tf features1 features2 days st1 st2,
      same_draws 0 (3 * Z.to_nat days) st1 st2 ->
      fst (ensemble_forecaster tf features1 days st1)
      = fst (ensemble_forecaster tf features2 days st2))
  /\
  (forall tf stream seasonality sku days uncertainty st1 st2,
      predict_demand tf stream seasonality sku days uncertainty st1
      = predict_demand tf stream seasonality sku days uncertainty st2).
Proof.
  split; [|split].
  - intros tf features days st. split.
    + unfold _predict_with_random_forest.
      rewrite predict_loop_tape; reflexivity.
    + unfold ensemble_forecaster, _predict_with_lstm,
        _predict_with_random_forest, _predict_with_gradient_boosting.
      destruct tf; cbn [negb]; rewrite !predict_loop_tape;
        cbn [tape pos]; rewrite create_ensemble_nonempty by discriminate;
        cbn [snd]; f_equal; lia.
  - intros tf features1 features2 days st1 st2 Hsame.
    set (n := Z.to_nat days) in *.
    pose proof (predict_loop_agree 100 0 10 0 n st1 st2
                  (same_draws_sub 0 (3 * n) 0 n st1 st2 Hsame
                     ltac:(lia) ltac:(lia)))
      as L0.
    pose proof (predict_loop_agree 95 5 8 0 n st1 st2
                  (same_draws_sub 0 (3 * n) 0 n st1 st2 Hsame
                     ltac:(lia) ltac:(lia)))
      as R0.
    pose proof (predict_loop_agree 95 5 8 n n st1 st2
                  (same_draws_sub 0 (3 * n) n n st1 st2 Hsame
                     ltac:(lia) ltac:(lia)))
      as R1.
    pose proof (predict_loop_agree 102 3 7 n n st1 st2
                  (same_draws_sub 0 (3 * n) n n st1 st2 Hsame
                     ltac:(lia) ltac:(lia)))
      as G1.
    pose proof (predict_loop_agree 102 3 7 (n + n) n st1 st2
                  (same_draws_sub 0 (3 * n) (n + n) n st1 st2 Hsame
                     ltac:(lia) ltac:(lia)))
      as G2.
    rewrite !predict_loop_tape in L0, R0, R1, G1, G2.
    cbn [fst tape pos] in L0, R0, R1, G1, G2.
    unfold ensemble_forecaster, _predict_with_lstm,
      _predict_with_random_forest, _predict_with_gradient_boosting.
    fold n.
    destruct tf; cbn [negb]; rewrite !predict_loop_tape; cbn [tape pos];
      rewrite !create_ensemble_nonempty by discriminate; cbn [fst].
    + rewrite !Nat.add_0_r in L0.
      rewrite (Nat.add_assoc (pos st1) n n), (Nat.add_assoc (pos st2) n n)
        in G2.
      rewrite L0, R1, G2. reflexivity.
    + rewrite !Nat.add_0_r in R0. rewrite R0, G1. reflexivity.
  - intros. unfold predict_demand, _get_historical_demand_data. reflexivity.
Qed.

Lemma forecasts_fixed_by_generator_state_witness :
  fst (ensemble_forecaster false no_features 2 counting_state)
  = fst (ensemble_forecaster false (_prepare_demand_features one_week) 2
           counting_state).
Proof.
  apply (proj1 (proj2 forecasts_fixed_by_generator_state)).
  intros k Hk; reflexivity.
Defined.

(** Two successive invocations with the same features, horizon and
    generators: the generator state has advanced in between, and the point
    predictions differ. *)
Lemma successive_runs_counterexample :
  let run1 := ensemble_forecaster false no_features 1 counting_state in
  let run2 := ensemble_forecaster false no_features 1 (snd run1) in
  exists p1 p2,
    snd (fst run1) = Ok [Num p1] /\
    snd (fst run2) = Ok [Num p2] /\
    ~ p1 == p2 /\
    fst (_predict_with_random_forest no_features 1 counting_state)
    = success [Num (95 + (5 + 8 * 0))] "Random Forest" 0.80 /\
    fst (_predict_with_random_forest no_features 1
           (snd (_predict_with_random_forest no_features 1 counting_state)))
    = success [Num (95 + (5 + 8 * 1))] "Random Forest" 0.80.
Proof.
  cbv zeta. eexists; eexists.
  split; [vm_compute; reflexivity|].
  split; [vm_compute; reflexivity|].
  split; [intros H; vm_compute in H; discriminate|].
  split; reflexivity.
Qed.

End Determinism.

(** ** Confidence intervals *)

Section ConfidenceIntervals.
Import MLService NpRandom.

Lemma nth_error_lower forecasts features d x :
  nth_error forecasts d = Some x ->
  nth_error (lower_bound (_calculate_confidence_intervals forecasts features)) d
  = Some (fsub x (fmul (Num 1.96) std_error)).
Proof.
  intros H; simpl. rewrite nth_error_map, H; reflexivity.
Qed.

Lemma nth_error_upper forecasts features d x :
  nth_error forecasts d = Some x ->
  nth_error (upper_bound (_calculate_confidence_intervals forecasts features)) d
  = Some (fadd x (fmul (Num 1.96) std_error)).
Proof.
  intros H; simpl. rewrite nth_error_map, H; reflexivity.
Qed.

Lemma half_width_brackets (x : pyfloat) :
  is_nan x = false ->
  fle (fsub x (fmul (Num 1.96) std_error)) x = true /\
  fle x (fadd x (fmul (Num 1.96) std_error)) = true.
Proof.
  destruct x as [p| | |]; simpl; intros Hx; try discriminate;
    try (split; reflexivity).
  split; apply Qle_bool_iff; lra.
Qed.

Lemma length_normal_n (loc scale : Q) (n : nat) (st : RandomState) :
  length (fst (normal_n loc scale n st)) = n.
Proof.
  revert st; induction n as [|n IH]; intros st; simpl; [reflexivity|].
  specialize (IH (snd (standard_normal st))).
  destruct (normal_n loc scale n _); simpl in *. rewrite IH; reflexivity.
Qed.

Lemma historical_data_length stream seasonality sku st :
  length (demand (fst (_get_historical_demand_data stream seasonality sku st)))
  = n_dates.
Proof.
  unfold _get_historical_demand_data.
  pose proof (length_normal_n 0 10 n_dates (seed stream 42)) as Hn.
  destruct (normal_n 0 10 n_dates (seed stream 42)) as [noise st1].
  cbn [fst demand] in *.
  rewrite !length_map, length_combine, length_seq, Hn. apply Nat.min_id.
Qed.

Lemma map_pymax_Num {A} (f : A -> Q) (l : list A) :
  map (fun k => pymax (Num (f k)) (Num 0)) l
  = map Num (map (fun k => floor0 (f k)) l).
Proof.
  rewrite map_map. apply map_ext; intros k; apply pymax_Num.
Qed.

(** The forecasting stage always combines finite, non-negative points. *)
Lemma ensemble_forecaster_points tf features days st :
  exists forecasts qs,
    fst (ensemble_forecaster tf features days st) = (forecasts, Ok (map Num qs))
    /\ length qs = Z.to_nat days
    /\ forall d, (d < Z.to_nat days)%nat -> 0 <= nth d qs 0.
Proof.
  unfold ensemble_forecaster, _predict_with_lstm,
    _predict_with_random_forest, _predict_with_gradient_boosting.
  destruct tf; cbn [negb]; rewrite !predict_loop_tape; cbn [tape pos];
    rewrite !map_pymax_Num;
    match goal with
    | |- context [_create_ensemble_forecast ?F days ?s] =>
        match F with
        | context [success (map Num ?l) "LSTM" _] =>
            match F with
            | context [success (map Num ?r) "Random Forest" _] =>
                match F with
                | context [success (map Num ?g) "Gradient Boosting" _] =>
                    destruct (ensemble_finite F days s
                                [(l, 0.85); (r, 0.80); (g, 0.82)])
                      as (qs & Hq & Hlen & Hnth)
                end
            end
        | context [success (map Num ?r) "Random Forest" _] =>
            match F with
            | context [success (map Num ?g) "Gradient Boosting" _] =>
                destruct (ensemble_finite F days s [(r, 0.80); (g, 0.82)])
                  as (qs & Hq & Hlen & Hnth)
            end
        end
    end;
    try reflexivity;
    try (repeat constructor; cbn [snd]; lra);
    try (repeat constructor; cbn [fst]; rewrite length_map, length_seq; lia).
  all: rewrite Hq; cbn [fst]; eexists; exists qs;
    (split; [reflexivity|]); (split; [exact Hlen|]);
    intros d Hd; rewrite (Hnth d Hd); apply Q.le_max_l.
Qed.



(** C10. The lower bound is the point minus 1.96 * 5.0 and is not floored:
    a point below 9.8 has a negative lower bound, while every point of the
    weighted combination is floored at 0. *)
Theorem lower_bound_not_floored :
  (forall forecasts features d p,
      nth_error forecasts d = Some (Num p) ->
      nth_error
        (lower_bound (_calculate_confidence_intervals forecasts features)) d
      = Some (Num (p - 1.96 * 5.0)) /\
      (p < 9.8 -> p - 1.96 * 5.0 < 0))
  /\
  (forall forecasts days st pts,
      predictions_list forecasts <> [] ->
      fst (_create_ensemble_forecast forecasts days st) = Ok pts ->
      Forall (fun x => flt x (Num 0) = false) pts).
Proof.
  split.
  - intros forecasts features d p H. split.
    + rewrite (nth_error_lower _ _ _ _ H); reflexivity.
    + intros Hp; lra.
  - intros forecasts days st pts Hne.
    rewrite create_ensemble_nonempty by exact Hne. simpl.
    generalize (seq 0 (Z.to_nat days)) as ds.
    intros ds; revert pts; induction ds as [|d ds IH]; intros pts; simpl.
    + intros [= <-]; constructor.
    + unfold ensemble_day at 1.
      destruct (mapM _ (predictions_list forecasts)) as [dp|e];
        simpl; [|discriminate].
      destruct (mapM _ ds) as [rest|e]; simpl; [|discriminate].
      intros [= <-]; constructor; [|apply IH; reflexivity].
      unfold pymax, fgt.
      destruct (flt (py_sum _) (Num 0)) eqn:E; [reflexivity | exact E].
Qed.

Lemma lower_bound_not_floored_witness :
  nth_error
    (lower_bound (_calculate_confidence_intervals [Num 5]
                    no_features)) 0
  = Some (Num (5 - 1.96 * 5.0)) /\ 5 - 1.96 * 5.0 < 0.
Proof.
  destruct (proj1 lower_bound_not_floored [Num 5] no_features
              0%nat 5 eq_refl) as [H1 H2].
  split; [exact H1 | apply H2; reflexivity].
Defined.

End ConfidenceIntervals.

(** * Further properties of the code *)

(** ** Feature columns *)

Section FeatureColumns.
Import MLService.

Lemma shift_at (lag : nat) (s : list Q) (i : nat) :
  (i < length s)%nat ->
  nth_error (Pd.shift lag s) i
  = Some (if (lag <=? i)%nat then nth_error s (i - lag) else None).
Proof.
  intros Hi; unfold Pd.shift.
  rewrite nth_error_firstn.
  destruct (Nat.ltb_spec i (length s)) as [_|]; [|lia].
  destruct (Nat.leb_spec lag i) as [Hge|Hlt].
  - rewrite nth_error_app2 by (rewrite repeat_length; exact Hge).
    rewrite repeat_length, nth_error_map.
    destruct (nth_error s (i - lag)) eqn:E; [reflexivity|].
    apply nth_error_None in E; lia.
  - rewrite nth_error_app1 by (rewrite repeat_length; exact Hlt).
    rewrite nth_error_repeat by exact Hlt. reflexivity.
Qed.

Lemma length_shift (lag : nat) (s : list Q) :
  length (Pd.shift lag s) = length s.
Proof.
  unfold Pd.shift.
  rewrite length_firstn, length_app, repeat_length, length_map; lia.
Qed.

Lemma length_rolling {A} (w : nat) (f : list Q -> option A) (s : list Q) :
  length (Pd.rolling w f s) = length s.
Proof. unfold Pd.rolling; rewrite length_map, length_seq; reflexivity. Qed.

(** X1. For each lag of 1, 7, 14 and 30 the feature dict holds a lag
    column whose entry at row [i] is missing when [i < lag] and is the
    demand of row [i - lag] otherwise; a missing entry is never replaced by
    a number. *)
Theorem lag_features_correct (data : DataFrame) (lag i : nat) :
  In lag [1; 7; 14; 30]%nat ->
  (i < length (demand data))%nat ->
  exists col,
    In (lag, col) (demand_lag (_prepare_demand_features data)) /\
    nth_error col i
    = Some (if (lag <=? i)%nat then nth_error (demand data) (i - lag)
            else None) /\
    ((lag <= i)%nat -> exists v, nth_error col i = Some (Some v)) /\
    ((i < lag)%nat -> nth_error col i = Some None).
Proof.
  intros Hlag Hi. exists (Pd.shift lag (demand data)).
  split; [simpl in *; intuition (subst; auto)|].
  pose proof (shift_at lag (demand data) i Hi) as H.
  split; [exact H|]. split.
  - intros Hge. rewrite H.
    destruct (Nat.leb_spec lag i); [|lia].
    destruct (nth_error (demand data) (i - lag)) as [v|] eqn:E.
    + exists v; reflexivity.
    + apply nth_error_None in E; lia.
  - intros Hlt. rewrite H.
    destruct (Nat.leb_spec lag i); [lia | reflexivity].
Qed.

Lemma lag_features_correct_witness :
  exists col,
    In (7%nat, col) (demand_lag (_prepare_demand_features one_week)) /\
    nth_error col 6 = Some None /\ nth_error col 3 = Some None.
Proof.
  destruct (lag_features_correct one_week 7 6) as (col & Hin & H6 & _ & _).
  - simpl; tauto.
  - simpl; lia.
  - exists col. split; [exact Hin|]. split; [exact H6|].
    simpl in Hin.
    destruct Hin as [H|[H|[H|[H|[]]]]]; inversion H; subst; reflexivity.
Defined.

(** X2. Every column of the feature dict (four lags, three rolling means,
    three rolling standard deviations and the trend counter) has exactly one
    entry per row of the frame, and the trend counter of row [i] is [i]. *)
Theorem feature_columns_aligned (data : DataFrame) :
  let features := _prepare_demand_features data in
  let rows := length (demand data) in
  (forall k col, In (k, col) (demand_lag features) -> length col = rows) /\
  (forall k col,
      In (k, col) (demand_rolling_mean features) -> length col = rows) /\
  (forall k col,
      In (k, col) (demand_rolling_std features) -> length col = rows) /\
  length (demand_trend features) = rows /\
  map fst (demand_lag features) = [1; 7; 14; 30]%nat /\
  map fst (demand_rolling_mean features) = [7; 14; 30]%nat /\
  map fst (demand_rolling_std features) = [7; 14; 30]%nat /\
  (forall i, (i < rows)%nat -> nth_error (demand_trend features) i = Some i).
Proof.
  intros features rows. unfold features, _prepare_demand_features; cbn.
  repeat split.
  - intros k col H. repeat (destruct H as [H|H]; [inversion H; subst;
      apply length_shift|]). destruct H.
  - intros k col H. repeat (destruct H as [H|H]; [inversion H; subst;
      apply length_rolling|]). destruct H.
  - intros k col H. repeat (destruct H as [H|H]; [inversion H; subst;
      apply length_rolling|]). destruct H.
  - apply length_seq.
  - intros i Hi. rewrite nth_error_seq.
    destruct (Nat.ltb_spec i (length (demand data))); [reflexivity | lia].
Qed.

Lemma feature_columns_aligned_witness :
  length (Pd.shift 14 (demand one_week)) = 7%nat.
Proof.
  apply (proj1 (feature_columns_aligned one_week) 14%nat).
  simpl; tauto.
Defined.

End FeatureColumns.

(** ** The generators *)

Section Generators.
Import MLService NpRandom.

Lemma floor0_ge0 (x : Q) : 0 <= floor0 x.
Proof. rewrite floor0_Qmax. apply Q.le_max_l. Qed.

Lemma predict_loop_contract (b loc scale : Q) (n : nat) (st : RandomState) :
  exists qs,
    predict_loop b loc scale n st
    = (map Num qs, mkRandomState (tape st) (pos st + n)) /\
    length qs = n /\
    Forall (fun q => 0 <= q) qs.
Proof.
  rewrite predict_loop_tape, map_pymax_Num.
  eexists; split; [reflexivity|]. split.
  - rewrite length_map, length_seq; reflexivity.
  - apply Forall_forall; intros q Hq.
    apply in_map_iff in Hq as (k & <- & _). apply floor0_ge0.
Qed.

(** X3. Each generator returns exactly [days] predictions (none when [days]
    is not positive), every one a non-negative number, together with its
    fixed confidence in (0, 1], and consumes exactly one random variate per
    prediction.  Without TensorFlow the LSTM generator returns an error
    dict without predictions and leaves the random generator untouched. *)
Theorem generator_contract (features : features_dict) (days : Z)
    (st : RandomState) :
  let n := Z.to_nat days in
  (forall run name c,
      In (run, name, c)
         [(_predict_with_lstm true features days st, "LSTM", 0.85);
          (_predict_with_random_forest features days st, "Random Forest", 0.80);
          (_predict_with_gradient_boosting features days st,
           "Gradient Boosting", 0.82)] ->
      exists qs,
        run = (success (map Num qs) name c,
               mkRandomState (tape st) (pos st + n)) /\
        length qs = n /\
        Forall (fun q => 0 <= q) qs /\
        0 < c <= 1)
  /\
  _predict_with_lstm false features days st
  = (failure "TensorFlow not available", st).
Proof.
  intros n. split; [|reflexivity].
  intros run name c H.
  unfold _predict_with_lstm, _predict_with_random_forest,
    _predict_with_gradient_boosting in H. cbn [negb] in H. fold n in H.
  destruct H as [H|[H|[H|[]]]]; inversion H; subst; clear H.
  - destruct (predict_loop_contract 100 0 10 n st) as (qs & -> & Hl & Hq).
    exists qs. repeat split; try assumption; lra.
  - destruct (predict_loop_contract 95 5 8 n st) as (qs & -> & Hl & Hq).
    exists qs. repeat split; try assumption; lra.
  - destruct (predict_loop_contract 102 3 7 n st) as (qs & -> & Hl & Hq).
    exists qs. repeat split; try assumption; lra.
Qed.

Lemma generator_contract_witness :
  exists qs,
    _predict_with_random_forest no_features 3 counting_state
    = (success (map Num qs) "Random Forest" 0.80,
       mkRandomState (tape counting_state) 3) /\
    length qs = 3%nat.
Proof.
  destruct (proj1 (generator_contract no_features 3 counting_state)
              (_predict_with_random_forest no_features 3 counting_state)
              "Random Forest" 0.80) as (qs & H & Hl & _).
  - right; left; reflexivity.
  - exists qs; split; [exact H | exact Hl].
Defined.

End Generators.

(** ** Further properties of the ensemble combination *)

Section EnsembleEdges.
Import MLService NpRandom.

Lemma mapM_ok_inv {A B} (f : A -> result B) (l : list A) (bs : list B) :
  mapM f l = Ok bs -> forall a, In a l -> exists b, f a = Ok b.
Proof.
  revert bs; induction l as [|x l IH]; intros bs H a Ha; [destruct Ha|].
  simpl in H. destruct (f x) as [b|e] eqn:Ex; simpl in H; [|discriminate].
  destruct (mapM f l) as [bs'|e] eqn:El; simpl in H; [|discriminate].
  destruct Ha as [<-|Ha]; [exists b; exact Ex | exact (IH bs' eq_refl a Ha)].
Qed.

Lemma mapM_raise_only {A B} (f : A -> result B) (l : list A) (e0 : exn) :
  (forall a e, In a l -> f a = Raise e -> e = e0) ->
  forall e, mapM f l = Raise e -> e = e0.
Proof.
  induction l as [|x l IH]; intros Hf e H; simpl in H; [discriminate|].
  destruct (f x) as [b|e'] eqn:Ex; simpl in H.
  - destruct (mapM f l) as [bs|e''] eqn:El; simpl in H; [discriminate|].
    injection H as <-. apply IH; [|reflexivity].
    intros a e1 Ha; apply Hf; right; exact Ha.
  - injection H as <-. apply (Hf x e' (or_introl eq_refl) Ex).
Qed.

Lemma py_index_raise {A} (l : list A) (i : nat) (e : exn) :
  py_index l i = Raise e -> e = IndexError.
Proof.
  unfold py_index; destruct (nth_error l i); [discriminate|].
  intros [= <-]; reflexivity.
Qed.

Lemma ensemble_day_raise weights preds d e :
  ensemble_day weights preds d = Raise e -> e = IndexError.
Proof.
  unfold ensemble_day.
  destruct (mapM _ preds) as [dp|e'] eqn:E; simpl; [discriminate|].
  intros [= <-].
  apply (mapM_raise_only _ preds IndexError) with (e := e') in E;
    [exact E|].
  intros p e1 _; apply py_index_raise.
Qed.

(** X4. Predictions are neither truncated nor padded: when a generator
    that produced predictions supplies fewer than [days] of them, the
    combination raises [IndexError] and draws no random number. *)
Theorem short_prediction_raises forecasts days st :
  Exists (fun p => (length p < Z.to_nat days)%nat) (predictions_list forecasts) ->
  _create_ensemble_forecast forecasts days st = (Raise IndexError, st).
Proof.
  intros Hex.
  rewrite create_ensemble_nonempty by (destruct Hex; discriminate).
  f_equal.
  destruct (mapM _ (seq 0 (Z.to_nat days))) as [pts|e] eqn:E.
  - exfalso. apply Exists_exists in Hex as (p & Hp & Hlen).
    destruct (mapM_ok_inv _ _ _ E (length p)) as (b & Hb).
    { apply in_seq; lia. }
    unfold ensemble_day in Hb.
    destruct (mapM _ (predictions_list forecasts)) as [dp|e'] eqn:Ei;
      simpl in Hb; [|discriminate].
    destruct (mapM_ok_inv _ _ _ Ei p Hp) as (x & Hx).
    unfold py_index in Hx.
    rewrite (proj2 (nth_error_None p (length p)) (Nat.le_refl _)) in Hx.
    discriminate.
  - f_equal. apply (mapM_raise_only _ _ IndexError) with (e := e) in E;
      [exact E|].
    intros d e1 _; apply ensemble_day_raise.
Qed.

Lemma short_prediction_raises_witness :
  _create_ensemble_forecast scenario_C 2 counting_state
  = (Raise IndexError, counting_state).
Proof.
  apply (short_prediction_raises scenario_C 2 counting_state).
  left; simpl; lia.
Defined.

Lemma fadd_nan_r (a : pyfloat) : fadd a NaN = NaN.
Proof. destruct a; reflexivity. Qed.

Lemma fmul_nan_r (a : pyfloat) : fmul a NaN = NaN.
Proof. destruct a; reflexivity. Qed.

Lemma fdiv_nan_r (a : pyfloat) : fdiv a NaN = NaN.
Proof. destruct a; reflexivity. Qed.

Lemma fold_fadd_in_nan (l : list pyfloat) (a : pyfloat) :
  In NaN l -> fold_left fadd l a = NaN.
Proof.
  revert a; induction l as [|x l IH]; intros a H; [destruct H|].
  simpl. destruct H as [->|H].
  - rewrite fadd_nan_r. apply fold_fadd_nan.
  - apply IH, H.
Qed.

Lemma in_nan_products (ws xs : list pyfloat) :
  length ws = length xs -> In NaN xs ->
  In NaN (map (fun '(w, p) => fmul w p) (combine ws xs)).
Proof.
  revert xs; induction ws as [|w ws IH]; intros [|x xs] Hlen H;
    try discriminate; [destruct H|].
  simpl. destruct H as [->|H].
  - left; apply fmul_nan_r.
  - right; apply IH; [simpl in Hlen; lia | exact H].
Qed.

Lemma normalize_nan (l : list (list pyfloat * pyfloat)) :
  Exists (fun g => snd g = NaN) l ->
  normalize (map snd l) = map (fun _ => NaN) l.
Proof.
  intros H; unfold normalize, py_sum.
  rewrite fold_fadd_in_nan.
  - rewrite map_map. apply map_ext; intros g; apply fdiv_nan_r.
  - apply Exists_exists in H as (g & Hg & Hn).
    apply in_map_iff; exists g; split; assumption.
Qed.

(** X5. A [nan] is never masked.  When every generator has predictions for
    each requested day and one of them predicts [nan] for day [d], the
    combined point of day [d] is [nan]: the floor [max(_, 0)] does not
    replace it.  When a generator reports a [nan] confidence, the combined
    point of every day is [nan]. *)
Theorem nan_is_propagated forecasts days st :
  Forall (fun p => (Z.to_nat days <= length p)%nat) (predictions_list forecasts) ->
  (forall d,
      (d < Z.to_nat days)%nat ->
      Exists (fun p => nth_error p d = Some NaN) (predictions_list forecasts) ->
      exists pts,
        _create_ensemble_forecast forecasts days st = (Ok pts, st) /\
        length pts = Z.to_nat days /\
        nth_error pts d = Some NaN)
  /\
  (Exists (fun w => w = NaN) (raw_weights forecasts) ->
   _create_ensemble_forecast forecasts days st
   = (Ok (repeat NaN (Z.to_nat days)), st)).
Proof.
  intros Hlen. split.
  - intros d Hd Hex.
    rewrite create_ensemble_nonempty by (destruct Hex; discriminate).
    set (ws := normalize (raw_weights forecasts)).
    set (preds := predictions_list forecasts) in *.
    set (point := fun day =>
      pymax (py_sum (map (fun '(w, p) => fmul w p)
                         (combine ws (map (fun p => nth day p NaN) preds))))
            (Num 0)).
    exists (map point (seq 0 (Z.to_nat days))).
    split; [|split].
    + f_equal. apply mapM_ok; intros day Hday. apply in_seq in Hday.
      unfold ensemble_day.
      rewrite (mapM_ok _ (fun p => nth day p NaN)); [reflexivity|].
      intros p Hp; unfold py_index.
      rewrite Forall_forall in Hlen. specialize (Hlen p Hp).
      rewrite (nth_error_nth' p NaN); [reflexivity | lia].
    + rewrite length_map, length_seq; reflexivity.
    + rewrite nth_error_map, nth_error_seq.
      destruct (Nat.ltb_spec d (Z.to_nat days)); [|lia].
      cbn [option_map Nat.add]. f_equal. unfold point, py_sum.
      rewrite fold_fadd_in_nan; [reflexivity|].
      apply in_nan_products.
      * unfold ws, normalize, raw_weights, preds, predictions_list.
        rewrite !length_map; reflexivity.
      * apply Exists_exists in Hex as (p & Hp & Hn).
        apply in_map_iff; exists p; split; [|exact Hp].
        apply nth_error_nth; exact Hn.
  - intros Hex. unfold raw_weights in Hex.
    assert (Hne : collect forecasts <> []).
    { destruct (collect forecasts); [inversion Hex | discriminate]. }
    rewrite create_ensemble_nonempty.
    2:{ unfold predictions_list; destruct (collect forecasts);
        [congruence | discriminate]. }
    unfold raw_weights, predictions_list in *.
    rewrite normalize_nan by (apply (proj1 (Exists_map _ _ _)) in Hex; exact Hex).
    rewrite (mapM_ok _ (fun _ => NaN)), map_const_seq; [reflexivity|].
    intros d Hd; apply in_seq in Hd.
    apply ensemble_day_zero; [exact Hne|].
    apply (proj1 (Forall_map _ _ _)) in Hlen.
    eapply Forall_impl; [|exact Hlen]. simpl; intros g Hg; lia.
Qed.

Lemma nan_is_propagated_witness :
  exists pts,
    _create_ensemble_forecast
      [("random_forest", success [NaN] "Random Forest" 0.80);
       ("gradient_boosting", success [Num 3] "Gradient Boosting" 0.82)]
      1 counting_state
    = (Ok pts, counting_state) /\
    nth_error pts 0 = Some NaN.
Proof.
  destruct (proj1 (nan_is_propagated
              [("random_forest", success [NaN] "Random Forest" 0.80);
               ("gradient_boosting", success [Num 3] "Gradient Boosting" 0.82)]
              1 counting_state
              ltac:(repeat constructor)) 0%nat)
    as (pts & H & _ & Hn).
  - simpl; lia.
  - left; reflexivity.
  - exists pts; split; [exact H | exact Hn].
Defined.

(** The confidence-weighted sum of the day's predictions. *)
Lemma weighted_sum_ratio (gens : list (list Q * Q)) (d : nat) (k : Q) :
  Spec.weighted_sum (map (fun c => c / k) (map snd gens)) (day_column gens d)
  == Np.Qsum (map (fun g => snd g * nth d (fst g) 0) gens) / k.
Proof.
  unfold Spec.weighted_sum, day_column.
  induction gens as [|g gens IH]; simpl.
  - unfold Qdiv; ring.
  - rewrite IH. unfold Qdiv; ring.
Qed.

Lemma point_ratio (gens : list (list Q * Q)) (d : nat) :
  Spec.point (Spec.weights (map snd gens)) (day_column gens d)
  == Qmax 0 (Np.Qsum (map (fun g => snd g * nth d (fst g) 0) gens)
             / Np.Qsum (map snd gens)).
Proof.
  unfold Spec.point, Spec.weights. rewrite weighted_sum_ratio. reflexivity.
Qed.

Lemma weighted_bounds (gens : list (list Q * Q)) (d : nat) (lo hi : Q) :
  Forall (fun g => 0 <= snd g) gens ->
  Forall (fun g => lo <= nth d (fst g) 0 <= hi) gens ->
  lo * Np.Qsum (map snd gens)
  <= Np.Qsum (map (fun g => snd g * nth d (fst g) 0) gens)
  <= hi * Np.Qsum (map snd gens).
Proof.
  intros Hc Hx; induction gens as [|g gens IH]; simpl.
  - lra.
  - inversion Hc as [|? ? Hc0 Hc']; inversion Hx as [|? ? Hx0 Hx']; subst.
    specialize (IH Hc' Hx').
    assert (lo * snd g <= snd g * nth d (fst g) 0 <= hi * snd g) by nra.
    split; lra.
Qed.



Lemma Qeq_refl_map {A} (f g : A -> Q) (l : list A) :
  (forall a, f a == g a) -> Np.Qsum (map f l) == Np.Qsum (map g l).
Proof.
  intros H; induction l as [|a l IH]; simpl; [reflexivity|].
  rewrite IH, H; reflexivity.
Qed.

Lemma Qsum_scaled {A} (f : A -> Q) (k : Q) (l : list A) :
  Np.Qsum (map (fun a => k * f a) l) == k * Np.Qsum (map f l).
Proof.
  induction l as [|a l IH]; simpl; [ring|]. rewrite IH; ring.
Qed.



Lemma Qsum_equal_confidences (gens : list (list Q * Q)) (c : Q) :
  Forall (fun g => snd g == c) gens ->
  Np.Qsum (map snd gens) == c * inject_Z (Z.of_nat (length gens)).
Proof.
  induction 1 as [|g gens Hg _ IH].
  - simpl; ring.
  - cbn [map Np.Qsum fold_right length]. fold (Np.Qsum (map snd gens)).
    rewrite IH, Hg, Nat2Z.inj_succ, <- Z.add_1_r, inject_Z_plus. ring.
Qed.

Lemma Qsum_equal_weighted (gens : list (list Q * Q)) (c : Q) (d : nat) :
  Forall (fun g => snd g == c) gens ->
  Np.Qsum (map (fun g => snd g * nth d (fst g) 0) gens)
  == c * Np.Qsum (day_column gens d).
Proof.
  unfold day_column. induction 1 as [|g gens Hg _ IH].
  - simpl; ring.
  - cbn [map Np.Qsum fold_right].
    fold (Np.Qsum (map (fun g => snd g * nth d (fst g) 0) gens)).
    fold (Np.Qsum (map (fun g => nth d (fst g) 0) gens)).
    rewrite IH, Hg. ring.
Qed.



End EnsembleEdges.

(** ** The data accessor and the forecasting pipeline *)

Section Pipeline.
Import MLService NpRandom.

Lemma normal_n_state (loc scale : Q) (n : nat) (st : RandomState) :
  snd (normal_n loc scale n st) = mkRandomState (tape st) (pos st + n).
Proof.
  revert st; induction n as [|n IH]; intros [t p]; simpl.
  - rewrite Nat.add_0_r; reflexivity.
  - specialize (IH (mkRandomState t (S p))).
    destruct (normal_n loc scale n (mkRandomState t (S p))); simpl in *.
    rewrite IH, Nat.add_succ_r; reflexivity.
Qed.

Lemma historical_data_shape stream seasonality sku st :
  let r := _get_historical_demand_data stream seasonality sku st in
  length (date (fst r)) = n_dates /\
  Forall (fun x => 0 <= x) (demand (fst r)) /\
  product_sku (fst r) = sku /\
  snd r = mkRandomState (stream 42%Z) n_dates /\
  forall sku' st',
    let r' := _get_historical_demand_data stream seasonality sku' st' in
    demand (fst r') = demand (fst r) /\ snd r' = snd r.
Proof.
  unfold _get_historical_demand_data.
  generalize n_dates as n; intros n.
  pose proof (normal_n_state 0 10 n (seed stream 42)) as Hs.
  destruct (normal_n 0 10 n (seed stream 42)) as [noise st1].
  cbn [fst snd date demand product_sku] in *.
  split; [apply length_seq|].
  split; [|split; [reflexivity | split; [exact Hs | split; reflexivity]]].
  apply Forall_forall; intros x Hx.
  apply in_map_iff in Hx as (y & <- & _). apply Q.le_max_r.
Qed.

(** X9. The data accessor reseeds NumPy's global generator on every call:
    whatever the generator state at entry, the frame is the same (1066
    daily rows, every demand non-negative, the SKU only labels it) and the
    generator is left 1066 variates into the stream of seed 42. *)
Theorem historical_data_contract stream seasonality sku st :
  let r := _get_historical_demand_data stream seasonality sku st in
  length (date (fst r)) = 1066%nat /\
  length (demand (fst r)) = 1066%nat /\
  Forall (fun x => 0 <= x) (demand (fst r)) /\
  product_sku (fst r) = sku /\
  snd r = mkRandomState (stream 42%Z) 1066 /\
  forall sku' st',
    let r' := _get_historical_demand_data stream seasonality sku' st' in
    demand (fst r') = demand (fst r) /\ snd r' = snd r.
Proof.
  intros r.
  destruct (historical_data_shape stream seasonality sku st)
    as (Hd & Hnn & Hsku & Hst & Hsame).
  change 1066%nat with n_dates.
  split; [exact Hd|].
  split; [apply historical_data_length|].
  split; [exact Hnn|]. split; [exact Hsku|]. split; [exact Hst|].
  exact Hsame.
Qed.

Lemma ensemble_forecaster_shape tf features days st :
  exists forecasts qs,
    ensemble_forecaster tf features days st
    = ((forecasts, Ok (map Num qs)),
       mkRandomState (tape st)
         (pos st + (if tf then 3 else 2) * Z.to_nat days)) /\
    map fst forecasts
    = (if tf then ["lstm"] else []) ++ ["random_forest"; "gradient_boosting"] /\
    Forall (fun kf => has_predictions (snd kf) = true) forecasts /\
    length qs = Z.to_nat days /\
    forall d, (d < Z.to_nat days)%nat -> 0 <= nth d qs 0.
Proof.
  unfold ensemble_forecaster, _predict_with_lstm,
    _predict_with_random_forest, _predict_with_gradient_boosting.
  destruct tf; cbn [negb]; rewrite !predict_loop_tape; cbn [tape pos];
    rewrite !map_pymax_Num;
    match goal with
    | |- context [_create_ensemble_forecast ?F days ?s] =>
        match F with
        | context [success (map Num ?l) "LSTM" _] =>
            match F with
            | context [success (map Num ?r) "Random Forest" _] =>
                match F with
                | context [success (map Num ?g) "Gradient Boosting" _] =>
                    destruct (ensemble_finite F days s
                                [(l, 0.85); (r, 0.80); (g, 0.82)])
                      as (qs & Hq & Hlen & Hnth)
                end
            end
        | context [success (map Num ?r) "Random Forest" _] =>
            match F with
            | context [success (map Num ?g) "Gradient Boosting" _] =>
                destruct (ensemble_finite F days s [(r, 0.80); (g, 0.82)])
                  as (qs & Hq & Hlen & Hnth)
            end
        end
    end;
    try reflexivity;
    try (repeat constructor; cbn [snd]; lra);
    try (repeat constructor; cbn [fst]; rewrite length_map, length_seq; lia).
  all: rewrite Hq; eexists; exists qs;
    (split; [apply (f_equal2 pair); [reflexivity | f_equal; lia]|]);
    (split; [reflexivity|]);
    (split; [repeat constructor|]);
    (split; [exact Hlen|]);
    intros d Hd; rewrite (Hnth d Hd); apply Q.le_max_l.
Qed.



End Pipeline.

(** ** Further properties of the trend metrics *)

Section TrendEdges.
Import AnalyticsService.

Lemma trend_metrics_of (data : list Py.dict) :
  (2 <= length data)%nat ->
  _calculate_trend_metrics data
  = Metrics
      (mkTrend
         (if Qltb 0 (change_pct (values_of data)) then "up"
          else if Qltb (change_pct (values_of data)) 0 then "down"
          else "stable")
         (change_pct (values_of data))
         (Np.std (values_of data))
         (Qabs (change_pct (values_of data)))).
Proof.
  intros Hn. unfold _calculate_trend_metrics.
  destruct (Z.ltb_spec (Py.len data) 2); [unfold Py.len in *; lia|].
  assert (Hv : length (values_of data) = length data) by apply length_map.
  destruct (Z.ltb_spec 1 (Py.len (values_of data)));
    [reflexivity | unfold Py.len in *; lia].
Qed.

Lemma Qltb_ge (a b : Q) : Qltb a b = false <-> b <= a.
Proof.
  split; intros H.
  - destruct (Qlt_le_dec a b) as [Hlt|Hle]; [|exact Hle].
    apply Qltb_lt in Hlt; congruence.
  - destruct (Qltb a b) eqn:E; [apply Qltb_lt in E; lra | reflexivity].
Qed.

(** X11. A zero baseline hides every change: whenever the first half of
    the series averages to 0, the change is reported as exactly 0, the
    direction as "stable" and the strength as 0, whatever the recent
    values are. *)
Theorem zero_baseline_reports_stable (data : list Py.dict) :
  (2 <= length data)%nat ->
  earlier_avg (values_of data) == 0 ->
  exists m,
    _calculate_trend_metrics data = Metrics m /\
    change_percentage m = 0 /\
    trend_direction m = "stable" /\
    trend_strength m = 0.
Proof.
  intros Hn He. rewrite (trend_metrics_of data Hn).
  eexists; split; [reflexivity|]. cbn [change_percentage trend_direction
    trend_strength].
  assert (Hc : change_pct (values_of data) = 0).
  { unfold change_pct. apply Qeq_bool_iff in He; rewrite He; reflexivity. }
  rewrite Hc. repeat split; reflexivity.
Qed.

Lemma zero_baseline_reports_stable_witness :
  exists m,
    _calculate_trend_metrics
      [[("value", 0)]; [("value", 0)]; [("value", 100)]; [("value", 100)]]
    = Metrics m /\
    change_percentage m = 0 /\ trend_direction m = "stable".
Proof.
  destruct (zero_baseline_reports_stable
              [[("value", 0)]; [("value", 0)];
               [("value", 100)]; [("value", 100)]])
    as (m & H & Hc & Hd & _).
  - simpl; lia.
  - vm_compute; reflexivity.
  - exists m; repeat split; assumption.
Defined.



Lemma Qltb_compat (a a' b b' : Q) :
  a == a' -> b == b' -> Qltb a b = Qltb a' b'.
Proof.
  intros Ha Hb; unfold Qltb. rewrite Ha, Hb; reflexivity.
Qed.

Lemma mean_scale (k : Q) (l : list Q) :
  Np.mean (map (Qmult k) l) == k * Np.mean l.
Proof.
  unfold Np.mean, Np.Qlen. rewrite length_map.
  assert (H : Np.Qsum (map (Qmult k) l) == k * Np.Qsum l).
  { induction l as [|x l IH]; simpl; [ring|]. rewrite IH; ring. }
  rewrite H. unfold Qdiv; ring.
Qed.

Lemma slice_from_map {A B} (f : A -> B) (l : list A) (i : Z) :
  Py.slice_from (map f l) i = map f (Py.slice_from l i).
Proof.
  unfold Py.slice_from. rewrite length_map. apply skipn_map.
Qed.

Lemma slice_to_map {A B} (f : A -> B) (l : list A) (i : Z) :
  Py.slice_to (map f l) i = map f (Py.slice_to l i).
Proof.
  unfold Py.slice_to. rewrite length_map. apply firstn_map.
Qed.

Lemma recent_avg_scale (k : Q) (vs : list Q) :
  recent_avg (map (Qmult k) vs) == k * recent_avg vs.
Proof.
  unfold recent_avg, Py.len. rewrite length_map.
  destruct (7 <=? Z.of_nat (length vs))%Z;
    rewrite slice_from_map; apply mean_scale.
Qed.

Lemma earlier_avg_scale (k : Q) (vs : list Q) :
  earlier_avg (map (Qmult k) vs) == k * earlier_avg vs.
Proof.
  unfold earlier_avg, Py.len. rewrite length_map.
  destruct (2 <=? Z.of_nat (length vs))%Z.
  - rewrite slice_to_map; apply mean_scale.
  - destruct vs; simpl; [ring | reflexivity].
Qed.

Lemma change_pct_scale (k : Q) (vs : list Q) :
  ~ k == 0 -> change_pct (map (Qmult k) vs) == change_pct vs.
Proof.
  intros Hk; unfold change_pct.
  pose proof (recent_avg_scale k vs) as Hr.
  pose proof (earlier_avg_scale k vs) as He.
  set (e := earlier_avg vs) in *. set (r := recent_avg vs) in *.
  set (e' := earlier_avg (map (Qmult k) vs)) in *.
  set (r' := recent_avg (map (Qmult k) vs)) in *.
  destruct (Qeq_bool e 0) eqn:E.
  - apply Qeq_bool_iff in E.
    assert (E' : e' == 0) by (rewrite He, E; ring).
    apply Qeq_bool_iff in E'; rewrite E'; reflexivity.
  - assert (Hne : ~ e == 0).
    { intros H; apply Qeq_bool_iff in H; congruence. }
    assert (Hne' : ~ e' == 0).
    { rewrite He. intros H. apply Qmult_integral in H; tauto. }
    destruct (Qeq_bool e' 0) eqn:E';
      [apply Qeq_bool_iff in E'; contradiction|].
    cbn [negb]. rewrite Hr, He. field. split; assumption.
Qed.



Lemma sq_dev_nonneg (l : list Q) : 0 <= Np.sq_dev l.
Proof.
  unfold Np.sq_dev. generalize (Np.mean l) as mu; intros mu.
  induction l as [|x l IH]; [simpl; lra|].
  cbn [map Np.Qsum fold_right].
  fold (Np.Qsum (map (fun y => (y - mu) * (y - mu)) l)).
  set (a := x - mu). assert (0 <= a * a) by nra. lra.
Qed.

Lemma variance_nonneg (l : list Q) : 0 <= Np.sq_dev l / Np.Qlen l.
Proof.
  unfold Np.Qlen. destruct l as [|x l].
  - unfold Np.sq_dev; simpl. vm_compute; discriminate.
  - apply Qle_shift_div_l; [|rewrite Qmult_0_l; apply sq_dev_nonneg].
    change 0 with (inject_Z 0). rewrite <- Zlt_Qlt. simpl length; lia.
Qed.



(** X15. Which observations the two averages use.  The earlier average
    is over the first [n/2] values.  For fewer than 7 values the recent
    average is over all the others, so the two windows split the series;
    from 7 values on it is over the last 7, which share at least one
    observation with the first half when there are fewer than 13 values and
    are separate from it from 13 values on. *)
Theorem trend_windows (values : list Q) :
  let n := length values in
  let earlier := Py.slice_to values (Py.len values / 2) in
  let recent :=
    if (7 <=? Py.len values)%Z then Py.slice_from values (-7)
    else Py.slice_from values ((- Py.len values) / 2) in
  (2 <= n)%nat ->
  recent_avg values = Np.mean recent /\
  earlier_avg values = Np.mean earlier /\
  length earlier = (n / 2)%nat /\
  ((n < 7)%nat -> earlier ++ recent = values) /\
  ((7 <= n)%nat -> length recent = 7%nat) /\
  ((7 <= n < 13)%nat -> (n < length earlier + length recent)%nat) /\
  ((13 <= n)%nat -> exists middle, earlier ++ middle ++ recent = values).
Proof.
  intros n earlier recent Hn.
  assert (He : earlier = Spec.first_half values) by apply slice_first_half.
  pose proof (Nat.Div0.div_mod n 2) as Hdm.
  pose proof (Nat.mod_upper_bound n 2 ltac:(lia)) as Hmod.
  split.
  { unfold recent_avg, recent. destruct (7 <=? Py.len values)%Z; reflexivity. }
  split.
  { unfold earlier_avg, earlier.
    destruct (Z.leb_spec 2 (Py.len values));
      [reflexivity | unfold Py.len in *; lia]. }
  assert (Hle : length earlier = (n / 2)%nat).
  { rewrite He. unfold Spec.first_half. rewrite length_firstn. fold n. lia. }
  split; [exact Hle|].
  unfold recent, Py.len.
  destruct (Z.leb_spec 7 (Z.of_nat (length values))) as [H7|H7].
  - rewrite slice_last7. unfold Spec.last_n. fold n.
    assert (Hr : length (skipn (n - 7) values) = 7%nat).
    { rewrite length_skipn. fold n. lia. }
    split; [intros; lia|]. split; [intros _; exact Hr|].
    split.
    + intros Hlt. rewrite Hr, Hle. lia.
    + intros H13. rewrite He. unfold Spec.first_half. fold n.
      exists (firstn (n - 7 - n / 2) (skipn (n / 2) values)).
      assert (Hs : skipn (n - 7) values
                   = skipn (n - 7 - n / 2) (skipn (n / 2) values)).
      { rewrite skipn_skipn. f_equal. lia. }
      rewrite Hs, firstn_skipn, firstn_skipn. reflexivity.
  - assert (Hlt : (n < 7)%nat) by (unfold n; lia).
    rewrite slice_last_half by (fold n; lia).
    split.
    + intros _. rewrite He. apply firstn_skipn.
    + repeat split; intros; lia.
Qed.

Lemma trend_windows_witness :
  Py.slice_to [1; 2; 3; 4; 5] (Py.len [1; 2; 3; 4; 5] / 2)
  ++ Py.slice_from [1; 2; 3; 4; 5] ((- Py.len [1; 2; 3; 4; 5]) / 2)
  = [1; 2; 3; 4; 5].
Proof.
  refine (proj1 (proj2 (proj2 (proj2 (trend_windows [1; 2; 3; 4; 5] _)))) _);
    simpl; lia.
Defined.

End TrendEdges.

(** ** Insights, recommendations and the trend endpoint *)

Section Insights.
Import AnalyticsService.

Lemma sqrt_gtb_spec (v t : Q) :
  0 <= t -> 0 <= v ->
  (sqrt_gtb (Sqrt v) t = true <-> (Q2R t < sqrt_val (Sqrt v))%R).
Proof.
  intros Ht Hv. unfold sqrt_gtb, sqrt_val.
  rewrite (proj2 (Qltb_ge t 0) Ht).
  assert (Ht' : (0 <= Q2R t)%R).
  { rewrite <- RMicromega.Q2R_0. apply Qle_Rle, Ht. }
  assert (Hsq : sqrt (Q2R (t * t)) = Q2R t).
  { rewrite Q2R_mult. apply sqrt_square, Ht'. }
  rewrite Qltb_lt. split; intros H.
  - rewrite <- Hsq. apply sqrt_lt_1_alt. split.
    + rewrite Q2R_mult. apply Rmult_le_pos; exact Ht'.
    + apply Qlt_Rlt, H.
  - apply Rlt_Qlt. apply sqrt_lt_0_alt. rewrite Hsq. exact H.
Qed.

(** X16. The insight drawn from a trend result: "strong positive" when the
    change exceeds 5, "declining" when it is below -5, "stable" when it is
    exactly 0, and no insight at all for a change between -5 and 5 other
    than 0, nor for a series too short to analyse. *)
Theorem insights_follow_change (data : list Py.dict) :
  ((length data < 2)%nat ->
   _generate_insights (_calculate_trend_metrics data) = [])
  /\
  ((2 <= length data)%nat ->
   let c := change_pct (values_of data) in
   let insights := _generate_insights (_calculate_trend_metrics data) in
   (5 < c ->
    insights
    = ["Strong positive trend detected - consider scaling current strategies"])
   /\
   (c < -5 ->
    insights
    = ["Declining trend requires immediate attention and corrective action"])
   /\
   (c == 0 ->
    insights = ["Metrics are stable - good for consistency planning"])
   /\
   (-5 <= c <= 5 -> ~ c == 0 -> insights = [])).
Proof.
  split.
  - intros Hn. unfold _calculate_trend_metrics.
    destruct (Z.ltb_spec (Py.len data) 2);
      [reflexivity | unfold Py.len in *; lia].
  - intros Hn c insights. unfold insights.
    rewrite (trend_metrics_of data Hn). fold c.
    unfold _generate_insights.
    cbn [get_trend_direction get_change_percentage trend_direction
         change_percentage direction_is].
    destruct (Qltb 0 c) eqn:E1; [apply Qltb_lt in E1 | apply Qltb_ge in E1].
    + cbn [String.eqb Ascii.eqb Bool.eqb andb].
      destruct (Qltb 5 c) eqn:E5; [apply Qltb_lt in E5 | apply Qltb_ge in E5];
        repeat split; intros; try reflexivity; lra.
    + destruct (Qltb c 0) eqn:E2;
        [apply Qltb_lt in E2 | apply Qltb_ge in E2];
        cbn [String.eqb Ascii.eqb Bool.eqb andb].
      * destruct (Qltb c (-5)) eqn:E5;
          [apply Qltb_lt in E5 | apply Qltb_ge in E5];
          repeat split; intros; try reflexivity; lra.
      * repeat split; intros; try reflexivity; lra.
Qed.

Lemma insights_follow_change_witness :
  _generate_insights (_calculate_trend_metrics scenario_A)
  = ["Strong positive trend detected - consider scaling current strategies"].
Proof.
  apply (proj1 (proj2 (insights_follow_change scenario_A) ltac:(simpl; lia))).
  vm_compute; reflexivity.
Defined.



End Insights.

Section TrendEndpoint.
Import AnalyticsService.

Variable forecast_data : Type.
Variable _get_historical_data : string -> Z -> outcome (list Py.dict).
Variable generate_forecast :
  string -> list Py.dict -> Z -> outcome forecast_data.

Lemma days_back_unknown (time_period : string) :
  ~ In time_period ["7d"; "30d"; "90d"; "1y"] ->
  days_back_of time_period = Throw (KeyError time_period).
Proof.
  intros H. unfold days_back_of. cbn [find fst snd].
  destruct (String.eqb_spec "7d" time_period) as [E|_];
    [exfalso; apply H; subst; simpl; tauto|].
  destruct (String.eqb_spec "30d" time_period) as [E|_];
    [exfalso; apply H; subst; simpl; tauto|].
  destruct (String.eqb_spec "90d" time_period) as [E|_];
    [exfalso; apply H; subst; simpl; tauto|].
  destruct (String.eqb_spec "1y" time_period) as [E|_];
    [exfalso; apply H; subst; simpl; tauto|].
  reflexivity.
Qed.

(** X18. The trend endpoint, whatever the data accessor and the forecaster
    do.  A granularity other than "daily" is answered as a success whose
    data is null, without the period being looked at.  For "daily", a
    period other than 7d, 30d, 90d and 1y raises [KeyError] before any data
    is read and is answered with status 500; the four periods read 7, 30,
    90 and 365 days back, and when the accessor returns data the report
    holds the trend metrics of that data with the insights and
    recommendations drawn from them; a failing forecaster turns the whole
    answer into status 500. *)
Theorem trend_endpoint_edges (metric time_period granularity : string)
    (include_forecasting : bool) :
  let run :=
    analyze_trends forecast_data _get_historical_data generate_forecast
      metric time_period granularity include_forecasting in
  let answer :=
    get_trend_analysis forecast_data _get_historical_data generate_forecast
      metric time_period granularity include_forecasting in
  (granularity <> "daily" ->
   run = Return None /\
   answer = APIResponse _ true "Trend analysis completed successfully" None)
  /\
  (granularity = "daily" ->
   ~ In time_period ["7d"; "30d"; "90d"; "1y"] ->
   run = Throw (KeyError time_period) /\ answer = HTTPException _ 500)
  /\
  map days_back_of ["7d"; "30d"; "90d"; "1y"]
  = [Return 7%Z; Return 30%Z; Return 90%Z; Return 365%Z]
  /\
  (granularity = "daily" ->
   forall days_back data,
     days_back_of time_period = Return days_back ->
     _get_historical_data metric days_back = Return data ->
     (include_forecasting = false ->
      run = Return (Some (mkReport _ metric data
                            (_calculate_trend_metrics data) None
                            (_generate_insights (_calculate_trend_metrics data))
                            (_generate_recommendations
                               (_calculate_trend_metrics data))))) /\
     (include_forecasting = true ->
      forall e, generate_forecast metric data 30 = Throw e ->
                answer = HTTPException _ 500)).
Proof.
  intros run answer. unfold answer, get_trend_analysis. fold run.
  unfold run, analyze_trends.
  split; [|split; [|split]].
  - intros Hg. destruct (String.eqb_spec granularity "daily");
      [contradiction | split; reflexivity].
  - intros -> Hp. cbn [String.eqb Ascii.eqb Bool.eqb].
    rewrite (days_back_unknown _ Hp). split; reflexivity.
  - reflexivity.
  - intros -> days_back data Hd Hh. cbn [String.eqb Ascii.eqb Bool.eqb].
    rewrite Hd; cbn [obind]. rewrite Hh; cbn [obind].
    split.
    + intros ->. reflexivity.
    + intros -> e He. rewrite He. reflexivity.
Qed.

End TrendEndpoint.

Lemma trend_endpoint_edges_witness :
  AnalyticsService.get_trend_analysis unit
    (fun _ _ => AnalyticsService.Return [])
    (fun _ _ _ => AnalyticsService.Return tt)
    "cost" "2y" "weekly" true
  = AnalyticsService.APIResponse unit true
      "Trend analysis completed successfully" None.
Proof.
  apply (proj1 (trend_endpoint_edges unit
                  (fun _ _ => AnalyticsService.Return [])
                  (fun _ _ _ => AnalyticsService.Return tt)
                  "cost" "2y" "weekly" true)).
  discriminate.
Defined.

(** ** The model-serving endpoint *)

Section Serving.
Import Schemas ModelServing.

Lemma in_registry (mt : string) :
  existsb (String.eqb mt) MODEL_REGISTRY = true <-> In mt MODEL_REGISTRY.
Proof.
  rewrite existsb_exists. split.
  - intros (x & Hx & E). apply String.eqb_eq in E; subst; exact Hx.
  - intros H. exists mt; split; [exact H | apply String.eqb_refl].
Qed.

(** X19. The endpoint answers 400 exactly for the model types that are not
    registered.  For each of the three registered types it answers with a
    prediction of the matching kind, never with an empty one, and always
    with confidence 0.85 and model version "1.0.0". *)
Theorem predict_dispatch (request : PredictionRequest) :
  (predict request = HTTP400 <-> ~ In (model_type request) MODEL_REGISTRY) /\
  (In (model_type request) MODEL_REGISTRY ->
   exists p,
     predict request = Response (Some p) 0.85 "1.0.0" /\
     match p with
     | Demand _ _ _ => model_type request = "demand_forecasting"
     | Risk _ _ _ => model_type request = "risk_prediction"
     | Route _ _ _ => model_type request = "route_optimization"
     end).
Proof.
  unfold predict.
  destruct (existsb (String.eqb (model_type request)) MODEL_REGISTRY) eqn:E.
  - apply in_registry in E. cbn [negb]. split.
    + split; [discriminate | intros H; contradiction].
    + intros _.
      destruct (String.eqb_spec (model_type request) "demand_forecasting")
        as [E1|N1]; [eexists; split; [reflexivity | exact E1]|].
      destruct (String.eqb_spec (model_type request) "risk_prediction")
        as [E2|N2]; [eexists; split; [reflexivity | exact E2]|].
      destruct (String.eqb_spec (model_type request) "route_optimization")
        as [E3|N3]; [eexists; split; [reflexivity | exact E3]|].
      exfalso. simpl in E. intuition congruence.
  - cbn [negb]. split.
    + split; [intros _ H | reflexivity].
      apply in_registry in H; congruence.
    + intros H. apply in_registry in H; congruence.
Qed.

Lemma predict_dispatch_witness :
  exists p,
    predict (mkRequest [] "risk_prediction") = Response (Some p) 0.85 "1.0.0".
Proof.
  destruct (proj2 (predict_dispatch (mkRequest [] "risk_prediction")))
    as (p & H & _).
  - simpl; tauto.
  - exists p; exact H.
Defined.

Lemma max2_spec (a b : Q) : max2 a b == Qmax a b.
Proof.
  unfold max2. destruct (AnalyticsService.Qltb a b) eqn:E.
  - apply Qltb_lt in E. rewrite Q.max_r; [reflexivity | lra].
  - apply Qltb_ge in E. rewrite Q.max_l; [reflexivity | lra].
Qed.

Lemma min2_spec (a b : Q) : min2 a b == Qmin a b.
Proof.
  unfold min2. destruct (AnalyticsService.Qltb b a) eqn:E.
  - apply Qltb_lt in E. rewrite Q.min_r; [reflexivity | lra].
  - apply Qltb_ge in E. rewrite Q.min_l; [reflexivity | lra].
Qed.

(** X20. The risk score is the [supplier_risk] feature (50 when absent)
    clamped to [0, 100]: it is the feature itself inside that range, 0 below
    and 100 above, and it never decreases when the feature grows.  The
    level is read off the unclamped feature, so a feature below 0 gives
    score 0 with level "medium" and one above 100 gives 100 with "high". *)
Theorem risk_score_clamped (feats : Py.dict) :
  let s := Py.get feats "supplier_risk" 50 in
  exists score level risks,
    risk_prediction feats = Risk score level risks /\
    0 <= score <= 100 /\
    (0 <= s <= 100 -> score == s) /\
    (s < 0 -> score == 0 /\ level = "medium") /\
    (100 < s -> score == 100 /\ level = "high") /\
    forall feats' score' level' risks',
      risk_prediction feats' = Risk score' level' risks' ->
      s <= Py.get feats' "supplier_risk" 50 -> score <= score'.
Proof.
  intros s. unfold risk_prediction. fold s.
  eexists; eexists; eexists. split; [reflexivity|].
  assert (Hc : forall x, min2 100 (max2 0 x) == Qmin 100 (Qmax 0 x)).
  { intros x. rewrite min2_spec, max2_spec. reflexivity. }
  rewrite Hc.
  split.
  { split.
    - apply Q.min_glb; [lra | apply Q.le_max_l].
    - apply Q.le_min_l. }
  split.
  { intros [H0 H1]. rewrite Q.max_r, Q.min_r by lra. reflexivity. }
  split.
  { intros Hs. rewrite Q.max_l, Q.min_r by lra. split; [reflexivity|].
    rewrite (proj2 (Qltb_lt s 70)) by lra. reflexivity. }
  split.
  { intros Hs. rewrite Q.max_r, Q.min_l by lra. split; [reflexivity|].
    rewrite (proj2 (Qltb_ge s 70)) by lra. reflexivity. }
  intros feats' score' level' risks' H Hle.
  injection H as <- _ _.
  rewrite (Hc s), (Hc (Py.get feats' "supplier_risk" 50)).
  apply Q.min_le_compat_l, Q.max_le_compat_l, Hle.
Qed.

Lemma risk_score_clamped_witness :
  exists score level risks,
    risk_prediction [("supplier_risk", 250)] = Risk score level risks /\
    score == 100 /\ level = "high".
Proof.
  destruct (risk_score_clamped [("supplier_risk", 250)])
    as (score & level & risks & H & _ & _ & _ & Hhigh & _).
  exists score, level, risks. split; [exact H|].
  apply Hhigh. reflexivity.
Defined.



(** X22. The risk-level enumeration round-trips through its string value,
    distinct members carry distinct strings, and the level strings the
    endpoint emits are values of the enumeration: always MEDIUM or HIGH. *)
Theorem risk_level_round_trip :
  (forall r, of_value (value r) = Some r) /\
  (forall s r, of_value s = Some r -> value r = s) /\
  (forall r1 r2, value r1 = value r2 -> r1 = r2) /\
  (forall x,
      exists r,
        risk_level_of x = Some (value r) /\
        of_value (value r) = Some r /\
        (r = MEDIUM \/ r = HIGH)).
Proof.
  split; [intros []; reflexivity|].
  split.
  - intros s r H. unfold of_value in H.
    apply find_some in H as [_ H]. apply String.eqb_eq in H. exact H.
  - split; [apply value_inj|].
    intros x. rewrite risk_level_of_threshold.
    destruct (Qlt_le_dec x 70); eexists; (split; [reflexivity|]);
      (split; [reflexivity|]); tauto.
Qed.

Lemma risk_level_round_trip_witness :
  value CRITICAL = "critical".
Proof.
  apply (proj1 (proj2 risk_level_round_trip) "critical" CRITICAL).
  reflexivity.
Defined.

End Serving.

(** ** Complete feature rows *)

Section CompleteRows.
Import MLService.

(** X23. A row of the feature dict is complete, with every lag, rolling
    mean and rolling standard deviation present, exactly from row 30 on:
    before that the lag-30 entry is missing, so a frame of the minimum
    accepted length of 30 rows has no complete row at all. *)
Theorem complete_rows_from_30 (data : DataFrame) (i : nat) :
  (i < length (demand data))%nat ->
  let features := _prepare_demand_features data in
  ((30 <= i)%nat ->
   (forall k col, In (k, col) (demand_lag features) ->
                  exists v, nth_error col i = Some (Some v)) /\
   (forall k col, In (k, col) (demand_rolling_mean features) ->
                  exists v, nth_error col i = Some (Some v)) /\
   (forall k col, In (k, col) (demand_rolling_std features) ->
                  exists v, nth_error col i = Some (Some v)))
  /\
  ((i < 30)%nat ->
   exists col,
     In (30%nat, col) (demand_lag features) /\ nth_error col i = Some None).
Proof.
  intros Hi features. unfold features, _prepare_demand_features.
  cbn [demand_lag demand_rolling_mean demand_rolling_std map].
  split.
  - intros H30. repeat split; intros k col H;
      repeat (destruct H as [H|H]; [inversion H; subst; clear H|]);
      try destruct H.
    all: try (rewrite shift_at by exact Hi;
              match goal with
              | |- context [(?l <=? ?j)%nat] =>
                  destruct (Nat.leb_spec l j); [|lia]
              end;
              match goal with
              | |- context [nth_error ?s ?j] =>
                  destruct (nth_error s j) eqn:E;
                  [eexists; reflexivity | apply nth_error_None in E; lia]
              end).
    all: try (rewrite rolling_mean_at by (try exact Hi; lia);
              match goal with
              | |- context [(?l <=? ?j)%nat] =>
                  destruct (Nat.leb_spec l j); [|lia]
              end; eexists; reflexivity).
    all: rewrite rolling_std_at by (try exact Hi; lia);
      match goal with
      | |- context [(?l <=? ?j)%nat] =>
          destruct (Nat.leb_spec l j); [|lia]
      end; eexists; reflexivity.
  - intros Hlt. exists (Pd.shift 30 (demand data)).
    split; [simpl; tauto|].
    rewrite shift_at by exact Hi.
    destruct (Nat.leb_spec 30 i); [lia | reflexivity].
Qed.

Lemma complete_rows_from_30_witness :
  exists col,
    In (30%nat, col) (demand_lag (_prepare_demand_features one_week)) /\
    nth_error col 6 = Some None.
Proof.
  apply (proj2 (complete_rows_from_30 one_week 6 ltac:(simpl; lia))).
  lia.
Defined.

End CompleteRows.
